(** * Command Guardian: classifier, policy, receipts, verifier and runner

    A shallow embedding of the decision-and-audit pipeline of
    [command_guardian/guardian] (classifier.py, policy.py, tokens.py,
    receipts.py, verify.py, runner.py), followed by the properties of the
    specification that concern it.

    Conventions.  A Python [str] is a [string]; its characters are read as
    the code points 0..255 (the Latin-1 block of Unicode), which is where
    the tables below ([isspace], [isalnum], case folding, line boundaries)
    are written out in full.  Every such string has a UTF-8 encoding: a
    [str] that holds a lone surrogate, on which [str.encode] raises
    [UnicodeEncodeError], is not a value of the embedding, and no statement
    below speaks of one.  Python exceptions are values of [exn] carried
    by a state-and-error monad over the [World] the program runs in (audit
    directory, tokens file, clock, standard input and output, shell, call
    log).  Files are read and written without operating-system errors. *)

From Stdlib Require Import ZArith NArith Ascii String List Bool Lia.
From stdpp Require Import base option list gmap strings sorting.

Open Scope string_scope.

(* ===================================================================== *)
(** ** Python string primitives *)
(* ===================================================================== *)

Module Py.

Definition code (c : ascii) : N := N_of_ascii c.

Definition chr (n : N) : ascii := ascii_of_N n.

Definition in_range (lo hi : N) (c : ascii) : bool :=
  (lo <=? code c)%N && (code c <=? hi)%N.

(** [str.isspace] on one character: 0x09-0x0D, 0x1C-0x1F, 0x20, 0x85, 0xA0. *)
Definition isspace (c : ascii) : bool :=
  in_range 9 13 c || in_range 28 32 c || (code c =? 133)%N || (code c =? 160)%N.

Definition isdigit (c : ascii) : bool := in_range 48 57 c.

Definition isupper_ascii (c : ascii) : bool := in_range 65 90 c.

Definition islower_ascii (c : ascii) : bool := in_range 97 122 c.

(** [str.isalnum] on one character of the Latin-1 block. *)
Definition isalnum (c : ascii) : bool :=
  isdigit c || isupper_ascii c || islower_ascii c
  || (code c =? 170)%N || (code c =? 178)%N || (code c =? 179)%N
  || (code c =? 181)%N || (code c =? 185)%N || (code c =? 186)%N
  || in_range 188 190 c || in_range 192 214 c || in_range 216 246 c
  || in_range 248 255 c.

(** Simple lower-casing, as the regular-expression engine applies it under
    [re.IGNORECASE]: A-Z, and the Latin-1 capitals 0xC0-0xD6, 0xD8-0xDE. *)
Definition lower (c : ascii) : ascii :=
  if isupper_ascii c || in_range 192 214 c || in_range 216 222 c
  then chr (code c + 32) else c.

Fixpoint lstrip (s : string) : string :=
  match s with
  | String c s' => if isspace c then lstrip s' else s
  | EmptyString => EmptyString
  end.

(** [rstrip] keeps a character when it is not a space or when something
    that is kept follows it. *)
Fixpoint rstrip (s : string) : string :=
  match s with
  | String c s' =>
      match rstrip s' with
      | EmptyString => if isspace c then EmptyString else String c EmptyString
      | r => String c r
      end
  | EmptyString => EmptyString
  end.

Definition strip (s : string) : string := rstrip (lstrip s).

(** Line boundaries of [str.splitlines]: \n \r \v \f \x1c \x1d \x1e \x85
    (\r\n counts once). *)
Definition is_linebreak (c : ascii) : bool :=
  in_range 10 13 c || in_range 28 30 c || (code c =? 133)%N.

Fixpoint rev_string (acc s : string) : string :=
  match s with
  | String c s' => rev_string (String c acc) s'
  | EmptyString => acc
  end.

(** [cur] is the current line, reversed. *)
Fixpoint splitlines_from (cur : string) (s : string) : list string :=
  match s with
  | EmptyString =>
      match cur with
      | EmptyString => []
      | _ => [rev_string EmptyString cur]
      end
  | String c s' =>
      if is_linebreak c then
        rev_string EmptyString cur ::
          match s' with
          | String d s'' =>
              if (code c =? 13)%N && (code d =? 10)%N
              then splitlines_from EmptyString s''
              else splitlines_from EmptyString s'
          | EmptyString => []
          end
      else splitlines_from (String c cur) s'
  end.

Definition splitlines (s : string) : list string :=
  splitlines_from EmptyString s.

(** [s[:n]] *)
Fixpoint take_str (n : nat) (s : string) : string :=
  match n, s with
  | S n', String c s' => String c (take_str n' s')
  | _, _ => EmptyString
  end.

(** Decimal digits of a natural number, most significant first. *)
Fixpoint digits_of (fuel : nat) (n : N) (acc : string) : string :=
  match fuel with
  | O => acc
  | S fuel' =>
      let acc' := String (chr (48 + n mod 10)) acc in
      if (n <? 10)%N then acc' else digits_of fuel' (n / 10) acc'
  end.

Definition str_of_N (n : N) : string :=
  digits_of (S (N.to_nat (N.log2 n))) n EmptyString.

Fixpoint zeros (k : nat) : string :=
  match k with
  | O => EmptyString
  | S k' => String "0" (zeros k')
  end.

Definition zfill (width : nat) (s : string) : string :=
  zeros (width - String.length s) ++ s.

(** [str(z)] for an integer. *)
Definition str_of_Z (z : Z) : string :=
  match z with
  | Zneg p => String "-" (str_of_N (Npos p))
  | _ => str_of_N (Z.to_N z)
  end.

End Py.

(* ===================================================================== *)
(** ** Regular expressions: the fragment of [re] the rule tables use *)
(* ===================================================================== *)

Module Re.

Inductive regex : Type :=
| Empty
| Lit (c : ascii)
| CharSet (items : list (ascii * ascii))
| AnyChar
| SpaceCls
| WordCls
| AtStart
| AtEnd
| Boundary
| Cat (r1 r2 : regex)
| Alt (r1 r2 : regex)
| Star (r : regex).

Inductive flag : Set := I | X.

Record pattern : Type := { rx : regex; ignorecase : bool }.

(** *** Matching *)

Definition is_word (c : ascii) : bool :=
  Py.isalnum c || (Py.code c =? 95)%N.

Definition upper (c : ascii) : ascii :=
  if Py.islower_ascii c || Py.in_range 224 246 c || Py.in_range 248 254 c
  then Py.chr (Py.code c - 32) else c.

Definition lit_matches (ic : bool) (p t : ascii) : bool :=
  if ic then Ascii.eqb (Py.lower p) (Py.lower t) else Ascii.eqb p t.

Definition in_items (items : list (ascii * ascii)) (t : ascii) : bool :=
  existsb (fun it => Py.in_range (Py.code (fst it)) (Py.code (snd it)) t) items.

(** Under [re.I] a set matches [t] when it holds a character that folds to
    the same lower-case character as [t]. *)
Definition set_matches (ic : bool) (items : list (ascii * ascii)) (t : ascii) : bool :=
  if ic then in_items items (Py.lower t) || in_items items (upper (Py.lower t))
  else in_items items t.

Definition word_before (prev : option ascii) : bool :=
  match prev with Some c => is_word c | None => false end.

Definition word_after (s : string) : bool :=
  match s with String c _ => is_word c | EmptyString => false end.

(** [$] without [re.M]: at the end, or before a newline that ends the string. *)
Definition at_end (s : string) : bool :=
  match s with
  | EmptyString => true
  | String c EmptyString => (Py.code c =? 10)%N
  | _ => false
  end.

Definition one_char (ok : ascii -> bool) (s : string)
    (k : option ascii -> string -> bool) : bool :=
  match s with
  | String t s' => if ok t then k (Some t) s' else false
  | EmptyString => false
  end.

(** Backtracking matcher in continuation style.  [prev] is the character
    before the current position ([None] at the start of the string), [s]
    what is left of the string; [k] is run on every way [r] can match a
    prefix of [s]. *)
Fixpoint accepts (ic : bool) (r : regex) (prev : option ascii) (s : string)
    (k : option ascii -> string -> bool) {struct r} : bool :=
  match r with
  | Empty => k prev s
  | Lit p => one_char (lit_matches ic p) s k
  | CharSet items => one_char (set_matches ic items) s k
  | AnyChar => one_char (fun t => negb (Py.code t =? 10)%N) s k
  | SpaceCls => one_char Py.isspace s k
  | WordCls => one_char is_word s k
  | AtStart => match prev with None => k prev s | Some _ => false end
  | AtEnd => if at_end s then k prev s else false
  | Boundary =>
      if xorb (word_before prev) (word_after s) then k prev s else false
  | Cat r1 r2 => accepts ic r1 prev s (fun p' s' => accepts ic r2 p' s' k)
  | Alt r1 r2 => if accepts ic r1 prev s k then true else accepts ic r2 prev s k
  | Star r1 =>
      (fix loop (fuel : nat) (prev : option ascii) (s : string) : bool :=
         if k prev s then true
         else
           match fuel with
           | O => false
           | S fuel' =>
               accepts ic r1 prev s
                 (fun p' s' =>
                    if (String.length s' <? String.length s)%nat
                    then loop fuel' p' s' else false)
           end) (String.length s) prev s
  end.

Fixpoint search_from (ic : bool) (r : regex) (prev : option ascii) (s : string) : bool :=
  if accepts ic r prev s (fun _ _ => true) then true
  else
    match s with
    | String c s' => search_from ic r (Some c) s'
    | EmptyString => false
    end.

(** [pattern.search(s)] as a truth value: is there a match anywhere in [s]? *)
Definition search (p : pattern) (s : string) : bool :=
  search_from (ignorecase p) (rx p) None s.

(** *** Reading a pattern *)

Definition is_ascii_alnum (c : ascii) : bool :=
  Py.isdigit c || Py.isupper_ascii c || Py.islower_ascii c.

Definition is_verbose_space (c : ascii) : bool :=
  Py.in_range 9 13 c || (Py.code c =? 32)%N.

Definition parse_escape (c : ascii) : option regex :=
  if Ascii.eqb c "b" then Some Boundary
  else if Ascii.eqb c "s" then Some SpaceCls
  else if Ascii.eqb c "w" then Some WordCls
  else if is_ascii_alnum c then None
  else Some (Lit c).

Definition plain_in_set (c : ascii) : bool :=
  negb (Ascii.eqb c "\" || Ascii.eqb c "]" || Ascii.eqb c "[" || Ascii.eqb c "-").

Fixpoint parse_set (s : list ascii) (acc : list (ascii * ascii))
    : option (regex * list ascii) :=
  match s with
  | [] => None
  | a :: rest =>
      if Ascii.eqb a "]" then
        match acc with [] => None | _ => Some (CharSet (rev acc), rest) end
      else if plain_in_set a then
        match rest with
        | dash :: b :: rest' =>
            if Ascii.eqb dash "-" then
              if plain_in_set b && (Py.code a <=? Py.code b)%N
              then parse_set rest' ((a, b) :: acc) else None
            else parse_set rest ((a, a) :: acc)
        | _ => parse_set rest ((a, a) :: acc)
        end
      else None
  end.

Fixpoint skip_comment (s : list ascii) : list ascii :=
  match s with
  | [] => []
  | c :: rest => if (Py.code c =? 10)%N then rest else skip_comment rest
  end.

Fixpoint skip_spaces (s : list ascii) : list ascii :=
  match s with
  | c :: rest => if is_verbose_space c then skip_spaces rest else s
  | [] => []
  end.

Definition repeatable (r : regex) : bool :=
  match r with AtStart | AtEnd | Boundary => false | _ => true end.

(** An optional [*], [+] or [?] after an atom. *)
Definition parse_quant (x : bool) (a : regex) (s : list ascii)
    : option (regex * list ascii) :=
  let s1 := if x then skip_spaces s else s in
  match s1 with
  | q :: rest =>
      if Ascii.eqb q "*" then
        if repeatable a then Some (Star a, rest) else None
      else if Ascii.eqb q "+" then
        if repeatable a then Some (Cat a (Star a), rest) else None
      else if Ascii.eqb q "?" then
        if repeatable a then Some (Alt a Empty, rest) else None
      else Some (a, s)
  | [] => Some (a, s)
  end.

Fixpoint parse_alt (n : nat) (x : bool) (s : list ascii) {struct n}
    : option (regex * list ascii) :=
  match n with
  | O => None
  | S n' =>
      match parse_seq n' x s with
      | Some (r1, bar :: rest) =>
          if Ascii.eqb bar "|" then
            match parse_alt n' x rest with
            | Some (r2, rest') => Some (Alt r1 r2, rest')
            | None => None
            end
          else Some (r1, bar :: rest)
      | other => other
      end
  end
with parse_seq (n : nat) (x : bool) (s : list ascii) {struct n}
    : option (regex * list ascii) :=
  match n with
  | O => None
  | S n' =>
      match s with
      | [] => Some (Empty, [])
      | c :: rest =>
          if Ascii.eqb c "|" || Ascii.eqb c ")" then Some (Empty, s)
          else if x && is_verbose_space c then parse_seq n' x rest
          else if x && Ascii.eqb c "#" then parse_seq n' x (skip_comment rest)
          else
            match parse_atom n' x s with
            | Some (a, rest1) =>
                match parse_quant x a rest1 with
                | Some (q, rest2) =>
                    match parse_seq n' x rest2 with
                    | Some (r, rest3) => Some (Cat q r, rest3)
                    | None => None
                    end
                | None => None
                end
            | None => None
            end
      end
  end
with parse_atom (n : nat) (x : bool) (s : list ascii) {struct n}
    : option (regex * list ascii) :=
  match n with
  | O => None
  | S n' =>
      match s with
      | [] => None
      | c :: rest =>
          if Ascii.eqb c "(" then
            match rest with
            | q :: _ =>
                if Ascii.eqb q "?" then None
                else
                  match parse_alt n' x rest with
                  | Some (r, close :: rest') =>
                      if Ascii.eqb close ")" then Some (r, rest') else None
                  | _ => None
                  end
            | [] => None
            end
          else if Ascii.eqb c "[" then
            match rest with
            | q :: _ => if Ascii.eqb q "^" then None else parse_set rest []
            | [] => None
            end
          else if Ascii.eqb c "." then Some (AnyChar, rest)
          else if Ascii.eqb c "^" then Some (AtStart, rest)
          else if Ascii.eqb c "$" then Some (AtEnd, rest)
          else if Ascii.eqb c "\" then
            match rest with
            | e :: rest' =>
                match parse_escape e with
                | Some r => Some (r, rest')
                | None => None
                end
            | [] => None
            end
          else if Ascii.eqb c "*" || Ascii.eqb c "+" || Ascii.eqb c "?"
                  || Ascii.eqb c "{" then None
          else Some (Lit c, rest)
      end
  end.

Definition has_flag (f : flag) (fs : list flag) : bool :=
  existsb (fun g => match f, g with I, I | X, X => true | _, _ => false end) fs.

Definition parse (x : bool) (p : string) : option regex :=
  let cs := list_ascii_of_string p in
  match parse_alt (4 * List.length cs + 4) x cs with
  | Some (r, []) => Some r
  | _ => None
  end.

(** A regular expression nothing matches: the empty set of characters. *)
Definition never : regex := CharSet [].

(** [re.compile(p, flags)].  Outside the fragment read by [parse] the
    result matches nothing; [compiles] tells the two apart. *)
Definition compile (p : string) (fs : list flag) : pattern :=
  {| rx := match parse (has_flag X fs) p with Some r => r | None => never end;
     ignorecase := has_flag I fs |}.

Definition compiles (p : string) (fs : list flag) : bool :=
  match parse (has_flag X fs) p with Some _ => true | None => false end.

End Re.

(* ===================================================================== *)
(** ** classifier.py *)
(* ===================================================================== *)

Module Classifier.

Definition SAFE_ECHO : string := "safe_echo".
Definition SHELL_RUN : string := "shell_run".
Definition FILE_DELETE : string := "file_delete".
Definition NETWORK_EXEC : string := "network_exec".
Definition PRIVILEGE_ESCALATION : string := "privilege_escalation".
Definition DISK_FORMAT : string := "disk_format".
Definition PROCESS_KILL : string := "process_kill".
Definition SYSTEM_CONFIG : string := "system_config".

Definition ALL_INTENTS : list string :=
  [SAFE_ECHO; SHELL_RUN; FILE_DELETE; NETWORK_EXEC; PRIVILEGE_ESCALATION;
   DISK_FORMAT; PROCESS_KILL; SYSTEM_CONFIG].

Record _Rule : Type := { intent : string; pattern : Re.pattern }.

(** Order matters: the first rule that matches wins. *)
Definition _RULES : list _Rule :=
  [ (* disk_format *)
    {| intent := DISK_FORMAT;
       pattern := Re.compile "(^|\||\;|\&\&)\s*(mkfs|format\s+\w+\:|diskpart|dd\s+)" [Re.I; Re.X] |};
    {| intent := DISK_FORMAT;
       pattern := Re.compile "\bdd\b.*\bof=/dev/" [Re.I] |};
    (* network_exec *)
    {| intent := NETWORK_EXEC;
       pattern := Re.compile "(curl|wget)\s+.*\|\s*(ba)?sh" [Re.I] |};
    {| intent := NETWORK_EXEC;
       pattern := Re.compile "powershell\s+.*(\biex\b|\bInvoke-Expression\b|\biwr\b.*\|\s*iex)" [Re.I] |};
    {| intent := NETWORK_EXEC;
       pattern := Re.compile "(curl|wget|Invoke-WebRequest|iwr)\s+.*\|\s*(iex|Invoke-Expression|sh|bash)" [Re.I] |};
    (* file_delete *)
    {| intent := FILE_DELETE;
       pattern := Re.compile "(^|\||\;|\&\&)\s*rm\s+" [Re.I] |};
    {| intent := FILE_DELETE;
       pattern := Re.compile "(^|\||\;|\&\&)\s*(del|rmdir|Remove-Item)\s+" [Re.I] |};
    (* privilege_escalation *)
    {| intent := PRIVILEGE_ESCALATION;
       pattern := Re.compile "(^|\||\;|\&\&)\s*(sudo|doas|runas|pkexec)\s+" [Re.I] |};
    {| intent := PRIVILEGE_ESCALATION;
       pattern := Re.compile "\bchmod\s+.*\b777\b" [Re.I] |};
    {| intent := PRIVILEGE_ESCALATION;
       pattern := Re.compile "\bchmod\s+-R\s+" [Re.I] |};
    (* process_kill *)
    {| intent := PROCESS_KILL;
       pattern := Re.compile "(^|\||\;|\&\&)\s*(kill|killall|pkill)\s+" [Re.I] |};
    {| intent := PROCESS_KILL;
       pattern := Re.compile "(^|\||\;|\&\&)\s*taskkill\s+" [Re.I] |};
    (* system_config *)
    {| intent := SYSTEM_CONFIG;
       pattern := Re.compile "(^|\||\;|\&\&)\s*(sysctl|systemctl|launchctl|reg\s+(add|delete))\s+" [Re.I] |};
    {| intent := SYSTEM_CONFIG;
       pattern := Re.compile "\bregedit\b" [Re.I] |};
    (* safe_echo (near the end) *)
    {| intent := SAFE_ECHO;
       pattern := Re.compile "^\s*echo\s+" [Re.I] |};
    {| intent := SAFE_ECHO;
       pattern := Re.compile "^\s*printf\s+" [Re.I] |} ].

(** The intent of the first rule whose pattern is found in the stripped
    command; [SHELL_RUN] when there is none. *)
Definition classify (command : string) : string :=
  let cmd := Py.strip command in
  match List.find (fun rule => Re.search (pattern rule) cmd) _RULES with
  | Some rule => intent rule
  | None => SHELL_RUN
  end.

End Classifier.

(* ===================================================================== *)
(** ** policy.py *)
(* ===================================================================== *)

Module Policy.

Module C := Classifier.

Inductive Decision : Set := ALLOW | DENY.

Record _BlockRule : Type := { description : string; pattern : Re.pattern }.

(** U+2026 (horizontal ellipsis) lies outside the Latin-1 block; the two
    descriptions that hold it carry its three UTF-8 bytes instead. *)
Definition ellipsis : string :=
  String (Py.chr 226) (String (Py.chr 128) (String (Py.chr 166) EmptyString)).

Definition _ALWAYS_BLOCK : list _BlockRule :=
  [ (* root deletion *)
    {| description := "Destructive root deletion (rm -rf /)";
       pattern := Re.compile "\brm\s+.*-[A-Za-z]*r[A-Za-z]*f[A-Za-z]*\s+/\s*$" [Re.I] |};
    {| description := "Destructive root deletion (rm -rf /)";
       pattern := Re.compile "\brm\s+.*-[A-Za-z]*f[A-Za-z]*r[A-Za-z]*\s+/\s*$" [Re.I] |};
    {| description := "Destructive root deletion (rm -rf /*)";
       pattern := Re.compile "\brm\s+.*-[A-Za-z]*r[A-Za-z]*f[A-Za-z]*\s+/\*" [Re.I] |};
    (* curl/wget piped to a shell *)
    {| description :=
         "Network download piped to shell execution (curl|wget " ++ ellipsis ++ " | bash/sh)";
       pattern := Re.compile "(curl|wget)\s+.*\|\s*(ba)?sh" [Re.I] |};
    (* PowerShell download-and-execute *)
    {| description := "PowerShell download-and-execute pattern";
       pattern := Re.compile "powershell\s+.*(\biex\b|\bInvoke-Expression\b)" [Re.I] |};
    {| description := "PowerShell download-and-execute pattern";
       pattern := Re.compile "(iwr|Invoke-WebRequest)\s+.*\|\s*(iex|Invoke-Expression)" [Re.I] |};
    (* disk formatting *)
    {| description := "Disk formatting command (mkfs/format/diskpart)";
       pattern := Re.compile "(^|\s)(mkfs|diskpart)\b" [Re.I] |};
    {| description := "Disk formatting command (format drive)";
       pattern := Re.compile "\bformat\s+[A-Za-z]\:" [Re.I] |};
    (* destructive dd to a device *)
    {| description :=
         "Destructive device write (dd " ++ ellipsis ++ " of=/dev/" ++ ellipsis ++ ")";
       pattern := Re.compile "\bdd\b.*\bof=/dev/" [Re.I] |} ].

Definition RISKY_INTENTS : gset string :=
  {[ C.FILE_DELETE; C.PRIVILEGE_ESCALATION; C.PROCESS_KILL; C.SYSTEM_CONFIG ]}.

Record PolicyResult : Type := {
  decision : Decision;
  reason : string;
  requires_auth : bool;
  suggestion : option string
}.

(** [s.lower()] *)
Fixpoint str_lower (s : string) : string :=
  match s with
  | String c s' => String (Py.lower c) (str_lower s')
  | EmptyString => EmptyString
  end.

(** [needle in hay] *)
Fixpoint contains (needle hay : string) : bool :=
  if String.prefix needle hay then true
  else
    match hay with
    | String _ hay' => contains needle hay'
    | EmptyString => false
    end.

Definition _suggestion_for (description : string) : option string :=
  let d := str_lower description in
  if contains "root deletion" d then
    Some "Delete specific paths instead: rm -rf ./my_folder"
  else if contains "pipe" d || contains "download" d then
    Some "Download the script first, review it, then run: curl -O script.sh && cat script.sh && bash script.sh"
  else if contains "format" d || contains "diskpart" d then
    Some "Use safe disk utilities with explicit confirmation."
  else if contains "dd" d || contains "device write" d then
    Some "Double-check the target device; use a file path instead of a block device."
  else None.

Definition _suggestion_for_intent (intent command : string) : option string :=
  if String.eqb intent C.FILE_DELETE then
    Some "Use guardian allow file_delete --ttl 30 to pre-authorize, or confirm interactively."
  else if String.eqb intent C.PRIVILEGE_ESCALATION then
    Some "Review the command carefully. Use guardian allow privilege_escalation --ttl 30."
  else if String.eqb intent C.PROCESS_KILL then
    Some "Consider graceful termination (kill <pid>) before kill -9."
  else if String.eqb intent C.SYSTEM_CONFIG then
    Some "Back up your configuration first."
  else None.

(** The first always-block rule whose pattern is found in the command. *)
Definition first_block (command : string) : option _BlockRule :=
  List.find (fun rule => Re.search (pattern rule) command) _ALWAYS_BLOCK.

Definition evaluate (command intent : string) : PolicyResult :=
  match first_block command with
  | Some rule =>
      (* Gate 1: always-block patterns *)
      {| decision := DENY;
         reason := "BLOCKED: " ++ description rule;
         requires_auth := false;
         suggestion := _suggestion_for (description rule) |}
  | None =>
      if bool_decide (intent ∈ RISKY_INTENTS) then
        (* Gate 2: risky intents need authorization *)
        {| decision := DENY;
           reason := "Risky intent (" ++ intent ++ ") requires explicit authorization.";
           requires_auth := true;
           suggestion := _suggestion_for_intent intent command |}
      else
        (* Gate 3: safe *)
        {| decision := ALLOW;
           reason := "Command allowed by policy.";
           requires_auth := false;
           suggestion := None |}
  end.

Definition get_block_rules_summary : list string :=
  map description _ALWAYS_BLOCK.

End Policy.

(* ===================================================================== *)
(** ** hashlib.sha256 and the UTF-8 encoding *)
(* ===================================================================== *)

Module Hashlib.

Open Scope Z_scope.

(** [s.encode("utf-8")] for code points below 256: one byte below 0x80,
    two bytes from there on. *)
Fixpoint utf8 (s : string) : list Z :=
  match s with
  | EmptyString => []
  | String c s' =>
      let n := Z.of_N (Py.code c) in
      if n <? 128 then n :: utf8 s'
      else Z.lor 192 (Z.shiftr n 6) :: Z.lor 128 (Z.land n 63) :: utf8 s'
  end.

Definition w32 (x : Z) : Z := x mod 4294967296.

Definition add32 (x y : Z) : Z := w32 (x + y).

Definition rotr (x n : Z) : Z :=
  w32 (Z.lor (Z.shiftr x n) (Z.shiftl x (32 - n))).

Definition ch (x y z : Z) : Z := Z.lxor (Z.land x y) (Z.land (w32 (Z.lnot x)) z).

Definition maj (x y z : Z) : Z :=
  Z.lxor (Z.lxor (Z.land x y) (Z.land x z)) (Z.land y z).

Definition big_sigma0 (x : Z) : Z := Z.lxor (Z.lxor (rotr x 2) (rotr x 13)) (rotr x 22).
Definition big_sigma1 (x : Z) : Z := Z.lxor (Z.lxor (rotr x 6) (rotr x 11)) (rotr x 25).
Definition small_sigma0 (x : Z) : Z := Z.lxor (Z.lxor (rotr x 7) (rotr x 18)) (Z.shiftr x 3).
Definition small_sigma1 (x : Z) : Z := Z.lxor (Z.lxor (rotr x 17) (rotr x 19)) (Z.shiftr x 10).

(** The first 64 primes. *)
Definition primes : list Z :=
  [ 2; 3; 5; 7; 11; 13; 17; 19; 23; 29; 31; 37; 41; 43; 47; 53; 59; 61; 67; 71;
    73; 79; 83; 89; 97; 101; 103; 107; 109; 113; 127; 131; 137; 139; 149; 151;
    157; 163; 167; 173; 179; 181; 191; 193; 197; 199; 211; 223; 227; 229; 233;
    239; 241; 251; 257; 263; 269; 271; 277; 281; 283; 293; 307; 311 ].

(** The integer cube root of [n] (below 2 ^ [bits]), one bit at a time. *)
Fixpoint cube_root (bits : nat) (n r : Z) : Z :=
  match bits with
  | O => r
  | S bits' =>
      let r' := r + Z.shiftl 1 (Z.of_nat bits') in
      cube_root bits' n (if r' * r' * r' <=? n then r' else r)
  end.

(** The first 32 bits of the fractional part of a cube root and of a
    square root. *)
Definition frac_cube_root (p : Z) : Z := w32 (cube_root 36 (Z.shiftl p 96) 0).

Definition frac_square_root (p : Z) : Z := w32 (Z.sqrt (Z.shiftl p 64)).

(** The round constants: from the cube roots of the first 64 primes. *)
Definition K256 : list Z := Eval vm_compute in map frac_cube_root primes.

(** The initial hash value: from the square roots of the first 8 primes. *)
Definition H256 : list Z := Eval vm_compute in map frac_square_root (firstn 8 primes).

(** The message followed by 0x80, zero bytes up to 56 modulo 64, and the
    bit length on eight bytes, most significant first. *)
Definition be_bytes (k : nat) (x : Z) : list Z :=
  map (fun i => Z.land (Z.shiftr x (8 * Z.of_nat i)) 255) (rev (seq 0 k)).

Definition pad (msg : list Z) : list Z :=
  let len := Z.of_nat (List.length msg) in
  let fill := Z.to_nat ((55 - len) mod 64) in
  msg ++ 128 :: repeat 0 fill ++ be_bytes 8 (8 * len).

Definition word_of (b3 b2 b1 b0 : Z) : Z :=
  Z.lor (Z.lor (Z.lor (Z.shiftl b3 24) (Z.shiftl b2 16)) (Z.shiftl b1 8)) b0.

(** Big-endian 32-bit words of a byte string. *)
Fixpoint words (fuel : nat) (bs : list Z) : list Z :=
  match fuel, bs with
  | S fuel', b3 :: b2 :: b1 :: b0 :: rest => word_of b3 b2 b1 b0 :: words fuel' rest
  | _, _ => []
  end.

Fixpoint chunks (fuel : nat) (ws : list Z) : list (list Z) :=
  match fuel, ws with
  | _, [] => []
  | O, _ => []
  | S fuel', _ => firstn 16 ws :: chunks fuel' (skipn 16 ws)
  end.

(** The message schedule, newest word first; [k] words are still to come. *)
Fixpoint schedule (k : nat) (rev_w : list Z) : list Z :=
  match k with
  | O => rev_w
  | S k' =>
      let w2 := nth 1 rev_w 0 in
      let w7 := nth 6 rev_w 0 in
      let w15 := nth 14 rev_w 0 in
      let w16 := nth 15 rev_w 0 in
      let w := add32 (add32 (small_sigma1 w2) w7) (add32 (small_sigma0 w15) w16) in
      schedule k' (w :: rev_w)
  end.

Record regs : Type := { ra : Z; rb : Z; rc : Z; rd : Z; re : Z; rf : Z; rg : Z; rh : Z }.

Definition round (s : regs) (kw : Z * Z) : regs :=
  let t1 := add32 (add32 (add32 (rh s) (big_sigma1 (re s))) (ch (re s) (rf s) (rg s)))
                  (add32 (fst kw) (snd kw)) in
  let t2 := add32 (big_sigma0 (ra s)) (maj (ra s) (rb s) (rc s)) in
  {| ra := add32 t1 t2; rb := ra s; rc := rb s; rd := rc s;
     re := add32 (rd s) t1; rf := re s; rg := rf s; rh := rg s |}.

Definition regs_of (h : list Z) : regs :=
  {| ra := nth 0 h 0; rb := nth 1 h 0; rc := nth 2 h 0; rd := nth 3 h 0;
     re := nth 4 h 0; rf := nth 5 h 0; rg := nth 6 h 0; rh := nth 7 h 0 |}.

Definition list_of (s : regs) : list Z :=
  [ra s; rb s; rc s; rd s; re s; rf s; rg s; rh s].

Definition compress (h : list Z) (block : list Z) : list Z :=
  let w := rev (schedule 48 (rev block)) in
  let s := fold_left round (combine K256 w) (regs_of h) in
  map (fun p => add32 (fst p) (snd p)) (combine h (list_of s)).

Definition hex_digit (n : Z) : ascii :=
  if n <? 10 then Py.chr (Z.to_N (48 + n)) else Py.chr (Z.to_N (87 + n)).

Fixpoint hex_of_bytes (bs : list Z) : string :=
  match bs with
  | [] => EmptyString
  | b :: rest =>
      String (hex_digit (Z.shiftr b 4)) (String (hex_digit (Z.land b 15)) (hex_of_bytes rest))
  end.

Definition sha256 (msg : list Z) : list Z :=
  let ws := words (List.length msg + 72) (pad msg) in
  let h := fold_left compress (chunks (List.length ws) ws) H256 in
  concat (map (be_bytes 4) h).

(** [hashlib.sha256(s.encode("utf-8")).hexdigest()] *)
Definition sha256_hexdigest (s : string) : string :=
  hex_of_bytes (sha256 (utf8 s)).

End Hashlib.

(* ===================================================================== *)
(** ** Exceptions, results and the clock's values *)
(* ===================================================================== *)

(** The exceptions the modelled code can meet.  [CallbackError] stands for
    whatever an injected confirmation callback raises, [ConsoleError] for
    what [print] raises and for what [input] raises besides [EOFError] and
    [KeyboardInterrupt]; [Unmodelled] marks an input the embedding does
    not cover (a JSON escape naming a code point above 255, or a nesting
    deeper than the text is long). *)
Inductive exn : Type :=
| JSONDecodeError
| AttributeError
| TypeError
| ValueError
| KeyError
| FileNotFoundError
| ExecutionBlocked (reason : string)
| CallbackError
| ConsoleError
| Unmodelled.

Inductive result (A : Type) : Type :=
| Ok (a : A)
| Raise (e : exn).

Arguments Ok {A} a.
Arguments Raise {A} e.

Definition rbind {A B : Type} (r : result A) (k : A -> result B) : result B :=
  match r with
  | Ok a => k a
  | Raise e => Raise e
  end.

(** The errors of the JSON reader, and the results that are a value or one
    of them. *)
Definition decode_error (e : exn) : Prop :=
  e = JSONDecodeError \/ e = Unmodelled.

Definition benign {A : Type} (r : result A) : Prop :=
  match r with
  | Ok _ => True
  | Raise e => decode_error e
  end.

Declare Scope result_scope.
Delimit Scope result_scope with result.
Notation "'let*' x ':=' r 'in' k" := (rbind r (fun x => k))
  (at level 10, x pattern, r at level 100, k at level 200) : result_scope.

Module Datetime.

(** An aware [datetime] in UTC, by its civil fields. *)
Record datetime : Type := {
  year : N; month : N; day : N;
  hour : N; minute : N; second : N; microsecond : N
}.

Definition two (n : N) : string := Py.zfill 2 (Py.str_of_N n).

(** [d.isoformat()]: the microseconds are left out when they are zero. *)
Definition isoformat (d : datetime) : string :=
  Py.zfill 4 (Py.str_of_N (year d)) ++ "-" ++ two (month d) ++ "-" ++ two (day d)
  ++ "T" ++ two (hour d) ++ ":" ++ two (minute d) ++ ":" ++ two (second d)
  ++ (if (microsecond d =? 0)%N then "" else "." ++ Py.zfill 6 (Py.str_of_N (microsecond d)))
  ++ "+00:00".

(** [d.strftime("%Y-%m-%d")], with the C library's [%Y] (glibc does not
    pad years below 1000). *)
Definition strftime_ymd (d : datetime) : string :=
  Py.str_of_N (year d) ++ "-" ++ two (month d) ++ "-" ++ two (day d).

Definition lex (c1 c2 : comparison) : comparison :=
  match c1 with Eq => c2 | _ => c1 end.

Definition compare (a b : datetime) : comparison :=
  lex (year a ?= year b)%N (lex (month a ?= month b)%N (lex (day a ?= day b)%N
  (lex (hour a ?= hour b)%N (lex (minute a ?= minute b)%N
  (lex (second a ?= second b)%N (microsecond a ?= microsecond b)%N))))).

(** [a > b] *)
Definition gtb (a b : datetime) : bool :=
  match compare a b with Gt => true | _ => false end.

End Datetime.

(** Library functions taken as given: the text [json.dumps] writes for the
    float a JSON number literal denotes, and [datetime.fromisoformat]
    followed by the code's defaulting of a missing time zone to UTC
    ([None] when it raises [ValueError]). *)
Class PyRuntime : Type := {
  float_dumps : string -> string;
  fromisoformat : string -> option Datetime.datetime
}.

(* ===================================================================== *)
(** ** json *)
(* ===================================================================== *)

Module Json.

Open Scope result_scope.

(** A parsed document.  An object is a Python [dict]: its keys are
    distinct and kept in insertion order.  A float is kept as the text
    [json.dumps] writes for it. *)
#[warnings="-register-all"]
Inductive value : Type :=
| JNull
| JBool (b : bool)
| JInt (z : Z)
| JFloat (text : string)
| JStr (s : string)
| JArr (items : list value)
| JObj (items : list (string * value)).

Definition dict : Type := list (string * value).

(** [d.get(k)] *)
Fixpoint dict_get (k : string) (d : dict) : option value :=
  match d with
  | [] => None
  | (k', v) :: d' => if String.eqb k k' then Some v else dict_get k d'
  end.

(** [d[k] = v]: an existing key keeps its place. *)
Fixpoint dict_set (k : string) (v : value) (d : dict) : dict :=
  match d with
  | [] => [(k, v)]
  | (k', v') :: d' =>
      if String.eqb k k' then (k, v) :: d' else (k', v') :: dict_set k v d'
  end.

(** [{k: v for k, v in d.items() if k != key}] *)
Definition dict_without (key : string) (d : dict) : dict :=
  List.filter (fun kv => negb (String.eqb (fst kv) key)) d.

(** [v == s] for a string [s] *)
Definition is_str (s : string) (v : value) : bool :=
  match v with
  | JStr s' => String.eqb s' s
  | _ => false
  end.

(** [v[key]] for a string [key]: a dict answers, with [KeyError] for a
    key it does not have; a list, a string, a number, [True] or [None]
    raises [TypeError]. *)
Definition getitem (v : value) (key : string) : result value :=
  match v with
  | JObj d =>
      match dict_get key d with
      | Some x => Ok x
      | None => Raise KeyError
      end
  | _ => Raise TypeError
  end.

(** What [for x in v] goes through: the items of a list, the keys of a
    dict, the characters of a string; nothing else can be iterated. *)
Definition iter (v : value) : result (list value) :=
  match v with
  | JArr items => Ok items
  | JObj d => Ok (map (fun kv => JStr (fst kv)) d)
  | JStr s => Ok (map (fun c => JStr (String c EmptyString)) (list_ascii_of_string s))
  | _ => Raise TypeError
  end.

(** *** json.dumps with separators (",", ":") and ensure_ascii=False *)

Definition dquote : ascii := Py.chr 34.
Definition backslash : ascii := Py.chr 92.

Definition hex4 (n : N) : string :=
  Py.zfill 4 (String (Hashlib.hex_digit (Z.of_N (n / 16)))
             (String (Hashlib.hex_digit (Z.of_N (n mod 16))) EmptyString)).

Definition escape_char (c : ascii) : string :=
  let n := Py.code c in
  if Ascii.eqb c dquote then String backslash (String dquote EmptyString)
  else if Ascii.eqb c backslash then String backslash (String backslash EmptyString)
  else if (n =? 10)%N then String backslash "n"
  else if (n =? 13)%N then String backslash "r"
  else if (n =? 9)%N then String backslash "t"
  else if (n =? 8)%N then String backslash "b"
  else if (n =? 12)%N then String backslash "f"
  else if (n <? 32)%N then String backslash ("u" ++ hex4 n)
  else String c EmptyString.

Fixpoint escape (s : string) : string :=
  match s with
  | EmptyString => EmptyString
  | String c s' => escape_char c ++ escape s'
  end.

Definition quote (s : string) : string :=
  String dquote (escape s ++ String dquote EmptyString).

Fixpoint join (sep : string) (l : list string) : string :=
  match l with
  | [] => EmptyString
  | [x] => x
  | x :: l' => x ++ sep ++ join sep l'
  end.

(** Insertion into a list of rendered members ordered by key. *)
Fixpoint insert_by_key (kv : string * string) (l : list (string * string))
    : list (string * string) :=
  match l with
  | [] => [kv]
  | kv' :: l' =>
      if String.leb (fst kv) (fst kv') then kv :: l
      else kv' :: insert_by_key kv l'
  end.

Definition sort_by_key (l : list (string * string)) : list (string * string) :=
  fold_right insert_by_key [] l.

Fixpoint dumps (sort_keys : bool) (v : value) : string :=
  match v with
  | JNull => "null"
  | JBool true => "true"
  | JBool false => "false"
  | JInt z => Py.str_of_Z z
  | JFloat text => text
  | JStr s => quote s
  | JArr items => "[" ++ join "," (map (dumps sort_keys) items) ++ "]"
  | JObj items =>
      let rendered := map (fun kv => (fst kv, dumps sort_keys (snd kv))) items in
      let ordered := if sort_keys then sort_by_key rendered else rendered in
      "{" ++ join "," (map (fun kv => quote (fst kv) ++ ":" ++ snd kv) ordered) ++ "}"
  end.

(** *** json.loads *)

Definition is_ws (c : ascii) : bool :=
  let n := Py.code c in
  (n =? 32)%N || (n =? 9)%N || (n =? 10)%N || (n =? 13)%N.

Fixpoint skip_ws (s : list ascii) : list ascii :=
  match s with
  | c :: rest => if is_ws c then skip_ws rest else s
  | [] => []
  end.

Definition hex_val (c : ascii) : option N :=
  let n := Py.code c in
  if Py.isdigit c then Some (n - 48)%N
  else if Py.in_range 97 102 c then Some (n - 87)%N
  else if Py.in_range 65 70 c then Some (n - 55)%N
  else None.

Definition unescape (c : ascii) : option ascii :=
  if Ascii.eqb c dquote then Some dquote
  else if Ascii.eqb c backslash then Some backslash
  else if Ascii.eqb c "/" then Some "/"%char
  else if Ascii.eqb c "b" then Some (Py.chr 8)
  else if Ascii.eqb c "f" then Some (Py.chr 12)
  else if Ascii.eqb c "n" then Some (Py.chr 10)
  else if Ascii.eqb c "r" then Some (Py.chr 13)
  else if Ascii.eqb c "t" then Some (Py.chr 9)
  else None.

(** The body of a string, after its opening quote; [acc] is reversed. *)
Fixpoint scanstring (s : list ascii) (acc : string) : result (string * list ascii) :=
  match s with
  | [] => Raise JSONDecodeError
  | c :: rest =>
      if Ascii.eqb c dquote then Ok (Py.rev_string EmptyString acc, rest)
      else if Ascii.eqb c backslash then
        match rest with
        | e :: rest1 =>
            if Ascii.eqb e "u" then
              match rest1 with
              | h3 :: h2 :: h1 :: h0 :: rest2 =>
                  match hex_val h3, hex_val h2, hex_val h1, hex_val h0 with
                  | Some a3, Some a2, Some a1, Some a0 =>
                      if ((a3 =? 0) && (a2 =? 0))%N
                      then scanstring rest2 (String (Py.chr (a1 * 16 + a0)) acc)
                      else Raise Unmodelled
                  | _, _, _, _ => Raise JSONDecodeError
                  end
              | _ => Raise JSONDecodeError
              end
            else
              match unescape e with
              | Some c' => scanstring rest1 (String c' acc)
              | None => Raise JSONDecodeError
              end
        | [] => Raise JSONDecodeError
        end
      else if (Py.code c <? 32)%N then Raise JSONDecodeError
      else scanstring rest (String c acc)
  end.

Fixpoint span_digits (s : list ascii) : list ascii * list ascii :=
  match s with
  | c :: rest =>
      if Py.isdigit c then let (ds, r) := span_digits rest in (c :: ds, r)
      else ([], s)
  | [] => ([], [])
  end.

Definition Z_of_digits (ds : list ascii) : Z :=
  fold_left (fun acc c => acc * 10 + Z.of_N (Py.code c - 48))%Z ds 0%Z.

(** The fraction and exponent that may follow an integer part. *)
Definition span_frac (s : list ascii) : list ascii * list ascii :=
  match s with
  | dot :: rest =>
      if Ascii.eqb dot "." then
        match span_digits rest with
        | ([], _) => ([], s)
        | (ds, r) => (dot :: ds, r)
        end
      else ([], s)
  | [] => ([], [])
  end.

Definition span_exp (s : list ascii) : list ascii * list ascii :=
  match s with
  | e :: rest =>
      if Ascii.eqb e "e" || Ascii.eqb e "E" then
        let (sign, rest1) :=
          match rest with
          | sg :: r => if Ascii.eqb sg "+" || Ascii.eqb sg "-" then ([sg], r) else ([], rest)
          | [] => ([], rest)
          end in
        match span_digits rest1 with
        | ([], _) => ([], s)
        | (ds, r) => (e :: (sign ++ ds)%list, r)
        end
      else ([], s)
  | [] => ([], [])
  end.

Section Loads.

Context `{RT : PyRuntime}.

Definition parse_number (s : list ascii) : result (value * list ascii) :=
  let (neg, s1) :=
    match s with
    | c :: r => if Ascii.eqb c "-" then (true, r) else (false, s)
    | [] => (false, s)
    end in
  let int_part :=
    match s1 with
    | c :: r =>
        if Ascii.eqb c "0" then Some ([c], r)
        else if Py.isdigit c then Some (span_digits s1)
        else None
    | [] => None
    end in
  match int_part with
  | None => Raise JSONDecodeError
  | Some (ds, r) =>
      let (frac, r1) := span_frac r in
      let (ex, r2) := span_exp r1 in
      match frac, ex with
      | [], [] => Ok (JInt (if neg then - Z_of_digits ds else Z_of_digits ds)%Z, r2)
      | _, _ =>
          let lit := ((if neg then ["-"%char] else []) ++ ds ++ frac ++ ex)%list in
          Ok (JFloat (float_dumps (string_of_list_ascii lit)), r2)
      end
  end.

Fixpoint strip_prefix (p : list ascii) (s : list ascii) : option (list ascii) :=
  match p, s with
  | [], _ => Some s
  | a :: p', b :: s' => if Ascii.eqb a b then strip_prefix p' s' else None
  | _ :: _, [] => None
  end.

Definition keyword (word : string) (v : value) (s : list ascii)
    : option (value * list ascii) :=
  match strip_prefix (list_ascii_of_string word) s with
  | Some rest => Some (v, rest)
  | None => None
  end.

Definition first_of {A : Type} (l : list (option A)) : option A :=
  List.fold_right (fun o acc => match o with Some a => Some a | None => acc end) None l.

Definition parse_atom (s : list ascii) : result (value * list ascii) :=
  match first_of [ keyword "null" JNull s; keyword "true" (JBool true) s;
                   keyword "false" (JBool false) s; keyword "NaN" (JFloat "NaN") s;
                   keyword "Infinity" (JFloat "Infinity") s;
                   keyword "-Infinity" (JFloat "-Infinity") s ] with
  | Some r => Ok r
  | None => parse_number s
  end.

(** [s] starts at the first character of a value. *)
Fixpoint parse_value (n : nat) (s : list ascii) {struct n}
    : result (value * list ascii) :=
  match n with
  | O => Raise Unmodelled
  | S n' =>
      match s with
      | [] => Raise JSONDecodeError
      | c :: rest =>
          if Ascii.eqb c dquote then
            let* (str, rest1) := scanstring rest EmptyString in Ok (JStr str, rest1)
          else if Ascii.eqb c "{" then
            match skip_ws rest with
            | c1 :: rest1 =>
                if Ascii.eqb c1 "}" then Ok (JObj [], rest1)
                else parse_members n' (c1 :: rest1) []
            | [] => Raise JSONDecodeError
            end
          else if Ascii.eqb c "[" then
            match skip_ws rest with
            | c1 :: rest1 =>
                if Ascii.eqb c1 "]" then Ok (JArr [], rest1)
                else parse_elements n' (c1 :: rest1) []
            | [] => Raise JSONDecodeError
            end
          else parse_atom s
      end
  end
with parse_elements (n : nat) (s : list ascii) (acc : list value) {struct n}
    : result (value * list ascii) :=
  match n with
  | O => Raise Unmodelled
  | S n' =>
      let* (v, rest) := parse_value n' s in
      match skip_ws rest with
      | c :: rest1 =>
          if Ascii.eqb c "]" then Ok (JArr (rev (v :: acc)), rest1)
          else if Ascii.eqb c "," then parse_elements n' (skip_ws rest1) (v :: acc)
          else Raise JSONDecodeError
      | [] => Raise JSONDecodeError
      end
  end
with parse_members (n : nat) (s : list ascii) (acc : dict) {struct n}
    : result (value * list ascii) :=
  match n with
  | O => Raise Unmodelled
  | S n' =>
      match s with
      | q :: rest =>
          if Ascii.eqb q dquote then
            let* (key, rest1) := scanstring rest EmptyString in
            match skip_ws rest1 with
            | colon :: rest2 =>
                if Ascii.eqb colon ":" then
                  let* (v, rest3) := parse_value n' (skip_ws rest2) in
                  let acc' := dict_set key v acc in
                  match skip_ws rest3 with
                  | c :: rest4 =>
                      if Ascii.eqb c "}" then Ok (JObj acc', rest4)
                      else if Ascii.eqb c "," then parse_members n' (skip_ws rest4) acc'
                      else Raise JSONDecodeError
                  | [] => Raise JSONDecodeError
                  end
                else Raise JSONDecodeError
            | [] => Raise JSONDecodeError
            end
          else Raise JSONDecodeError
      | [] => Raise JSONDecodeError
      end
  end.

(** [json.loads(text)]: one value, with nothing but white space around it. *)
Definition loads (text : string) : result value :=
  let cs := list_ascii_of_string text in
  let* (v, rest) := parse_value (2 * List.length cs + 2) (skip_ws cs) in
  match skip_ws rest with
  | [] => Ok v
  | _ => Raise JSONDecodeError
  end.

End Loads.

End Json.

(* ===================================================================== *)
(** ** The world the program runs in *)
(* ===================================================================== *)

Module Env.

(** What one call of [input()] does: a line is read, or an exception is
    raised ([OtherError]: any but the two the runner catches). *)
Inductive stdin_event : Type :=
| Line (text : string)
| EOFError
| KeyboardInterrupt
| OtherError.

(** What an injected confirmation callback hands back. *)
Inductive pyval : Type :=
| PyNone
| PyBool (b : bool)
| PyInt (z : Z)
| PyStr (s : string).

(** Truth value of a Python object, as [if not authorized] tests it. *)
Definition truthy (v : pyval) : bool :=
  match v with
  | PyNone => false
  | PyBool b => b
  | PyInt z => negb (z =? 0)%Z
  | PyStr s => negb (String.eqb s EmptyString)
  end.

Inductive callback_outcome : Type :=
| Returns (v : pyval)
| Raises.

(** [confirm_callback(intent, command)] *)
Definition callback : Type := string -> string -> callback_outcome.

(** What [subprocess.run(command, shell=True, ...)] does. *)
Inductive shell_outcome : Type :=
| Completed (returncode : Z) (stdout stderr : string)
| TimeoutExpired
| OtherException (message : string).

(** Calls that leave the process, in the order they are made. *)
Inductive event : Type :=
| ReceiptWritten (file : string) (record : Json.dict)
| Executed (command : string)
| Printed (text : string)
| Prompted (prompt : string)
| CallbackCalled (intent command : string).

Record World : Type := {
  audit_dir : gmap string string;       (* file name |-> text *)
  tokens_file : option string;          (* the text of tokens.json, once it exists *)
  clock : nat -> Datetime.datetime;     (* successive readings of the clock *)
  ticks : nat;                          (* readings made so far *)
  stdin : list stdin_event;
  stdout : string -> bool;              (* the texts standard output takes *)
  shell : string -> shell_outcome;
  calls : list event
}.

(** Computations: a world in, a result or an exception and a world out. *)
Definition M (A : Type) : Type := World -> result A * World.

Definition ret {A : Type} (a : A) : M A := fun w => (Ok a, w).

Definition raise {A : Type} (e : exn) : M A := fun w => (Raise e, w).

Definition bind {A B : Type} (m : M A) (k : A -> M B) : M B :=
  fun w =>
    match m w with
    | (Ok a, w') => k a w'
    | (Raise e, w') => (Raise e, w')
    end.

Definition lift {A : Type} (r : result A) : M A := fun w => (r, w).

(** [datetime.now(timezone.utc)] *)
Definition now : M Datetime.datetime :=
  fun w =>
    (Ok (clock w (ticks w)),
     {| audit_dir := audit_dir w; tokens_file := tokens_file w; clock := clock w;
        ticks := S (ticks w); stdin := stdin w; stdout := stdout w;
        shell := shell w; calls := calls w |}).

Definition emit (e : event) : M unit :=
  fun w =>
    (Ok tt,
     {| audit_dir := audit_dir w; tokens_file := tokens_file w; clock := clock w;
        ticks := ticks w; stdin := stdin w; stdout := stdout w; shell := shell w;
        calls := (calls w ++ [e])%list |}).

Definition read_file (name : string) : M (option string) :=
  fun w => (Ok (audit_dir w !! name), w).

(** [open(name, "a").write(text)] *)
Definition append_file (name text : string) : M unit :=
  fun w =>
    (Ok tt,
     {| audit_dir := <[name := default EmptyString (audit_dir w !! name) ++ text]> (audit_dir w);
        tokens_file := tokens_file w; clock := clock w; ticks := ticks w;
        stdin := stdin w; stdout := stdout w; shell := shell w; calls := calls w |}).

(** [TOKENS_FILE.exists()] *)
Definition tokens_file_exists : M bool :=
  fun w => (Ok (match tokens_file w with Some _ => true | None => false end), w).

(** [TOKENS_FILE.read_text()] *)
Definition read_tokens_file : M string :=
  fun w =>
    match tokens_file w with
    | Some text => (Ok text, w)
    | None => (Raise FileNotFoundError, w)
    end.

(** [TOKENS_FILE.write_text(text)] *)
Definition write_tokens_file (text : string) : M unit :=
  fun w =>
    (Ok tt,
     {| audit_dir := audit_dir w; tokens_file := Some text; clock := clock w;
        ticks := ticks w; stdin := stdin w; stdout := stdout w; shell := shell w;
        calls := calls w |}).

(** [print(text)]: standard output takes the text, or the call raises. *)
Definition print (text : string) : M unit :=
  bind (emit (Printed text))
    (fun _ w => if stdout w text then (Ok tt, w) else (Raise ConsoleError, w)).

(** [input(prompt)], with what it raises handed back as a value; an
    exhausted standard input is an end of file. *)
Definition input (prompt : string) : M stdin_event :=
  bind (emit (Prompted prompt))
    (fun _ w =>
       match stdin w with
       | [] => (Ok EOFError, w)
       | ev :: rest =>
           (Ok ev,
            {| audit_dir := audit_dir w; tokens_file := tokens_file w; clock := clock w;
               ticks := ticks w; stdin := rest; stdout := stdout w; shell := shell w;
               calls := calls w |})
       end).

Definition subprocess_run (command : string) : M shell_outcome :=
  fun w => (Ok (shell w command), w).

End Env.

Declare Scope monad_scope.
Delimit Scope monad_scope with monad.
Notation "'let!' x ':=' m 'in' k" := (Env.bind m (fun x => k))
  (at level 10, x pattern, m at level 100, k at level 200) : monad_scope.

(* ===================================================================== *)
(** ** receipts.py *)
(* ===================================================================== *)

Module Receipts.

Import Json.
Open Scope monad_scope.

Definition newline : string := String (Py.chr 10) EmptyString.

(** ["0" * 64] *)
Definition GENESIS_HASH : string := Py.zeros 64.

Definition _today_file : Env.M string :=
  let! d := Env.now in
  Env.ret (Datetime.strftime_ymd d ++ ".jsonl").

Section WithRuntime.

Context `{RT : PyRuntime}.

(** The lines of a file, as [text.strip().splitlines()]. *)
Definition lines_of (text : string) : list string :=
  Py.splitlines (Py.strip text).

(** [_last_hash] on the text of the file ([None]: there is no such file). *)
Definition last_hash_of (file : option string) : result value :=
  match file with
  | None => Ok (JStr GENESIS_HASH)
  | Some text =>
      match last (lines_of text) with
      | None => Ok (JStr GENESIS_HASH)
      | Some line =>
          (let* last := Json.loads line in
           match last with
           | JObj d => Ok (default (JStr GENESIS_HASH) (dict_get "hash" d))
           | _ => Raise AttributeError
           end)%result
      end
  end.

Definition _last_hash (filepath : string) : Env.M value :=
  let! file := Env.read_file filepath in
  Env.lift (last_hash_of file).

Definition _canonical_json (record : dict) : string :=
  Json.dumps true (JObj record).

(** SHA-256 over the canonical JSON of the record without its [hash]. *)
Definition _compute_hash (record : dict) : string :=
  Hashlib.sha256_hexdigest (_canonical_json (dict_without "hash" record)).

(** A keyword argument that defaults to [None]. *)
Definition optional (o : option value) : value :=
  match o with Some v => v | None => JNull end.

Definition write_receipt (intent command decision reason : string)
    (token_id expires_at : option value) : Env.M dict :=
  let! filepath := _today_file in
  let! prev := _last_hash filepath in
  let! ts := Env.now in
  let record : dict :=
    [ ("ts", JStr (Datetime.isoformat ts));
      ("intent", JStr intent);
      ("command", JStr command);
      ("decision", JStr decision);
      ("reason", JStr reason);
      ("token_id", optional token_id);
      ("expires_at", optional expires_at);
      ("prev_hash", prev) ] in
  let record := dict_set "hash" (JStr (_compute_hash record)) record in
  let! _ := Env.append_file filepath (Json.dumps false (JObj record) ++ newline) in
  let! _ := Env.emit (Env.ReceiptWritten filepath record) in
  Env.ret record.

(** [json.loads] on every line that is not blank, in order. *)
Fixpoint loads_all (lines : list string) : result (list value) :=
  match lines with
  | [] => Ok []
  | line :: rest =>
      if String.eqb (Py.strip line) EmptyString then loads_all rest
      else
        (let* v := Json.loads line in
         let* vs := loads_all rest in
         Ok (v :: vs))%result
  end.

Definition read_receipts (file : option string) : result (list value) :=
  match file with
  | None => Ok []
  | Some text => loads_all (lines_of text)
  end.

End WithRuntime.

(** [name] ends with [suffix]. *)
Definition ends_with (suffix name : string) : bool :=
  String.prefix (Py.rev_string EmptyString suffix) (Py.rev_string EmptyString name).

Fixpoint insert_sorted (x : string) (l : list string) : list string :=
  match l with
  | [] => [x]
  | y :: l' => if String.leb x y then x :: l else y :: insert_sorted x l'
  end.

Definition sorted (l : list string) : list string :=
  fold_right insert_sorted [] l.

(** [sorted(AUDIT_DIR.glob("*.jsonl"))] *)
Definition get_all_receipt_files (dir : gmap string string) : list string :=
  sorted (List.filter (ends_with ".jsonl") (map fst (map_to_list dir))).

End Receipts.

(* ===================================================================== *)
(** ** verify.py *)
(* ===================================================================== *)

Module Verify.

Import Json.
Module R := Receipts.

Inductive mismatch : Set := PrevHashMismatch | HashMismatch.

(** The content of the message [failed_reason] is formatted from: which
    check failed, where, the first 16 characters expected and the slice
    [[:16]] of what the record holds. *)
Record reason : Type := {
  what : mismatch;
  at_record : nat;
  expected : string;
  got : value
}.

Record VerifyResult : Type := {
  ok : bool;
  total : nat;
  failed_index : option nat;
  failed_reason : option reason
}.

(** [v[:16]]: defined on strings and lists; a [TypeError] on [None],
    numbers, booleans and objects. *)
Definition slice16 (v : value) : result value :=
  match v with
  | JStr s => Ok (JStr (Py.take_str 16 s))
  | JArr items => Ok (JArr (firstn 16 items))
  | _ => Raise TypeError
  end.

(** [o == s] for what [record.get(key)] returned and a string [s]. *)
Definition equals_str (o : option value) (s : string) : bool :=
  match o with
  | Some (JStr s') => String.eqb s' s
  | _ => false
  end.

Definition failure (w : mismatch) (idx : nat) (exp : string) (field : option value)
    : result VerifyResult :=
  (let* shown := slice16 (default (JStr "MISSING") field) in
   Ok {| ok := false; total := idx; failed_index := Some idx;
         failed_reason :=
           Some {| what := w; at_record := idx;
                   expected := Py.take_str 16 exp; got := shown |} |})%result.

Section WithRuntime.

Context `{RT : PyRuntime}.

(** The loop over the records of one day-file; [i] counts them.  [Ok None]:
    the loop ran to its end. *)
Fixpoint verify_records (global_index i : nat) (day_prev : string)
    (records : list value) : result (option VerifyResult) :=
  match records with
  | [] => Ok None
  | JObj record :: rest =>
      let idx := (global_index + i)%nat in
      let expected_prev := day_prev in
      if negb (equals_str (dict_get "prev_hash" record) expected_prev) then
        (let* r := failure PrevHashMismatch idx expected_prev (dict_get "prev_hash" record) in
         Ok (Some r))%result
      else
        let recomputed := R._compute_hash record in
        if negb (equals_str (dict_get "hash" record) recomputed) then
          (let* r := failure HashMismatch idx recomputed (dict_get "hash" record) in
           Ok (Some r))%result
        else verify_records global_index (S i) recomputed rest
  | _ :: _ => Raise AttributeError
  end.

(** The loop over the day-files. *)
Fixpoint verify_files (dir : gmap string string) (global_index : nat)
    (files : list string) : result VerifyResult :=
  match files with
  | [] => Ok {| ok := true; total := global_index;
                failed_index := None; failed_reason := None |}
  | filepath :: rest =>
      (let* records := R.read_receipts (dir !! filepath) in
       let* found := verify_records global_index 0 R.GENESIS_HASH records in
       match found with
       | Some r => Ok r
       | None => verify_files dir (global_index + List.length records) rest
       end)%result
  end.

Definition verify_chain (dir : gmap string string) : result VerifyResult :=
  verify_files dir 0 (R.get_all_receipt_files dir).

End WithRuntime.

End Verify.

(* ===================================================================== *)
(** ** tokens.py *)
(* ===================================================================== *)

Module Tokens.

Import Json.
Open Scope monad_scope.

(** The file is created, holding an empty list, unless it exists. *)
Definition _ensure_store : Env.M unit :=
  let! there := Env.tokens_file_exists in
  if there then Env.ret tt else Env.write_tokens_file "[]".

Section WithRuntime.

Context `{RT : PyRuntime}.

Definition _load_tokens : Env.M value :=
  let! _ := _ensure_store in
  let! text := Env.read_tokens_file in
  Env.lift (Json.loads text).

(** The loop of [find_valid_token] over what the tokens file holds.
    [tok["intent"]] and [tok["expires_at"]] raise [TypeError] unless [tok]
    is a dict and [KeyError] when it lacks the key; [fromisoformat] raises
    [TypeError] unless it is given a string and [ValueError] when the
    string is no date. *)
Fixpoint first_valid (now : Datetime.datetime) (intent : string)
    (tokens : list value) : result (option dict) :=
  match tokens with
  | [] => Ok None
  | JObj tok :: rest =>
      match dict_get "intent" tok with
      | None => Raise KeyError
      | Some stored =>
          if negb (is_str intent stored) then first_valid now intent rest
          else
            match dict_get "expires_at" tok with
            | None => Raise KeyError
            | Some (JStr text) =>
                match fromisoformat text with
                | None => Raise ValueError
                | Some exp =>
                    if Datetime.gtb exp now then Ok (Some tok)
                    else first_valid now intent rest
                end
            | Some _ => Raise TypeError
            end
      end
  | _ :: _ => Raise TypeError
  end.

Definition find_valid_token (intent : string) : Env.M (option dict) :=
  let! now := Env.now in
  let! tokens := _load_tokens in
  Env.lift (let* items := Json.iter tokens in first_valid now intent items)%result.

End WithRuntime.

End Tokens.

(* ===================================================================== *)
(** ** runner.py *)
(* ===================================================================== *)

Module Runner.

Open Scope monad_scope.

Record RunResult : Type := {
  decision : string;
  intent : string;
  reason : string;
  exit_code : Z;
  output : option string;
  receipt : option Json.dict
}.

(** Exit code and combined output for what the subprocess did. *)
Definition code_and_output (outcome : Env.shell_outcome) : Z * string :=
  match outcome with
  | Env.Completed returncode stdout stderr => (returncode, stdout ++ stderr)
  | Env.TimeoutExpired => (124%Z, "[guardian] Command timed out after 300s.")
  | Env.OtherException message => (1%Z, "[guardian] Execution error: " ++ message)
  end.

(** The only function that starts a subprocess. *)
Definition _execute_command (command : string) : Env.M (Z * string) :=
  let! _ := Env.emit (Env.Executed command) in
  let! outcome := Env.subprocess_run command in
  Env.ret (code_and_output outcome).

(** U+26A0 (warning sign) lies outside the Latin-1 block; the line that
    holds it carries its three UTF-8 bytes instead. *)
Definition warning_sign : string :=
  String (Py.chr 226) (String (Py.chr 154) (String (Py.chr 160) EmptyString)).

(** The two lines printed before the prompt. *)
Definition risk_line (intent : string) : string :=
  String (Py.chr 10) (warning_sign ++ "  This is risky (intent=" ++ intent ++ ").").

Definition command_line (command : string) : string := "   Command: " ++ command.

Definition PROMPT : string := "   Type ALLOW to proceed: ".

(** Prompt on standard input; true when the user types ALLOW.  The two
    [print] are outside the [try]; inside it, only [EOFError] and
    [KeyboardInterrupt] are caught. *)
Definition _interactive_confirm (intent command : string) : Env.M bool :=
  let! _ := Env.print (risk_line intent) in
  let! _ := Env.print (command_line command) in
  let! answer := Env.input PROMPT in
  match answer with
  | Env.Line text => Env.ret (String.eqb (Py.strip text) "ALLOW")
  | Env.EOFError | Env.KeyboardInterrupt => Env.ret false
  | Env.OtherError => Env.raise ConsoleError
  end.

Definition call_callback (cb : Env.callback) (intent command : string) : Env.M Env.pyval :=
  let! _ := Env.emit (Env.CallbackCalled intent command) in
  match cb intent command with
  | Env.Returns v => Env.ret v
  | Env.Raises => Env.raise CallbackError
  end.

Definition is_block (pol : Policy.PolicyResult) : bool :=
  match Policy.decision pol with
  | Policy.DENY => negb (Policy.requires_auth pol)
  | Policy.ALLOW => false
  end.

(** [if tok]: [None] is false, and so is a dict without items. *)
Definition found (tok : option Json.dict) : option Json.dict :=
  match tok with
  | Some [] => None
  | _ => tok
  end.

(** The two shapes of [RunResult] the runner returns. *)
Definition denied (intent reason : string) (rec : Json.dict) : RunResult :=
  {| decision := "DENY"; intent := intent; reason := reason;
     exit_code := 1; output := None; receipt := Some rec |}.

Definition allowed (intent : string) (rec : Json.dict) (done : Z * string) : RunResult :=
  {| decision := "ALLOW"; intent := intent;
     reason := if (fst done =? 0)%Z then "Executed successfully."
               else "Command exited with code " ++ Py.str_of_Z (fst done) ++ ".";
     exit_code := fst done; output := Some (snd done); receipt := Some rec |}.

(** The reason written on an ALLOW receipt. *)
Definition allow_reason (pol : Policy.PolicyResult) : string :=
  match Policy.decision pol with
  | Policy.ALLOW => Policy.reason pol
  | Policy.DENY => "Authorized (token or interactive)."
  end.

Section WithRuntime.

Context `{RT : PyRuntime}.

(** A DENY receipt, then the DENY result with exit code 1. *)
Definition deny (intent command reason : string) : Env.M RunResult :=
  let! rec := Receipts.write_receipt intent command "DENY" reason None None in
  Env.ret (denied intent reason rec).

(** Gates 3 and 4: classify and evaluate again, then write the ALLOW
    receipt and execute. *)
Definition execute_checked (command intent : string) (pol : Policy.PolicyResult)
    (token_id expires_at : option Json.value) : Env.M RunResult :=
  let re_intent := Classifier.classify command in
  let re_pol := Policy.evaluate command re_intent in
  if is_block re_pol then
    let reason := "Re-classification blocked: " ++ Policy.reason re_pol in
    let! _ := Receipts.write_receipt re_intent command "DENY" reason None None in
    Env.raise (ExecutionBlocked reason)
  else
    let! rec :=
      Receipts.write_receipt intent command "ALLOW" (allow_reason pol)
        token_id expires_at in
    let! done := _execute_command command in
    Env.ret (allowed intent rec done).

Definition run (command : string) (skip_confirm : bool)
    (confirm_callback : option Env.callback) : Env.M RunResult :=
  (* Step 1: classify *)
  let intent := Classifier.classify command in
  (* Step 2: evaluate policy *)
  let pol := Policy.evaluate command intent in
  (* Gates 1 and 2: decision and token handling *)
  if is_block pol then
    deny intent command (Policy.reason pol)
  else if Policy.requires_auth pol then
    let! tok := Tokens.find_valid_token intent in
    match found tok with
    | Some tok =>
        let! token_id := Env.lift (Json.getitem (Json.JObj tok) "token_id") in
        let! expires_at := Env.lift (Json.getitem (Json.JObj tok) "expires_at") in
        execute_checked command intent pol (Some token_id) (Some expires_at)
    | None =>
        if skip_confirm then
          deny intent command
            "Risky intent denied (no valid token, no interactive confirmation)."
        else
          let! authorized :=
            match confirm_callback with
            | Some cb =>
                let! v := call_callback cb intent command in Env.ret (Env.truthy v)
            | None => _interactive_confirm intent command
            end in
          if negb authorized then
            deny intent command "User declined interactive authorization."
          else execute_checked command intent pol None None
    end
  else execute_checked command intent pol None None.

End WithRuntime.

End Runner.

(* ===================================================================== *)
(** ** What a run leaves behind *)
(* ===================================================================== *)

Module Trace.

Import Env.



Definition confirmations_in (evs : list event) : list event :=
  List.filter (fun ev => match ev with
                         | Printed _ | Prompted _ | CallbackCalled _ _ => true
                         | _ => false
                         end) evs.

(** The text of the record's field, when it is a string. *)
Definition field (key : string) (rec : Json.dict) : option string :=
  match Json.dict_get key rec with
  | Some (Json.JStr s) => Some s
  | _ => None
  end.

(** The file as it is after one more line. *)
Definition with_line (dir : gmap string string) (file : string) (rec : Json.dict)
    : gmap string string :=
  <[file := default EmptyString (dir !! file)
            ++ Json.dumps false (Json.JObj rec) ++ Receipts.newline]> dir.

(** The text [_load_tokens] reads: that of the file, or of the empty
    list the file is created with. *)
Definition stored_tokens (w : World) : string := default "[]" (tokens_file w).

(** [w'] is [w] after the calls [evs], with [dir'] for audit directory;
    the stored tokens, standard output, shell and clock are as before. *)
Record effects (w w' : World) (evs : list event) (dir' : gmap string string) : Prop := {
  eff_calls : calls w' = (calls w ++ evs)%list;
  eff_files : audit_dir w' = dir';
  eff_tokens : stored_tokens w' = stored_tokens w;
  eff_stdout : stdout w' = stdout w;
  eff_shell : shell w' = shell w;
  eff_clock : clock w' = clock w
}.

(** The answer of the confirmation collaborator in the words of the
    specification, with the reading of the code: the line typed, stripped,
    is ALLOW, or the callback returns a true value.  There is no answer
    when the callback raises, when standard output refuses one of the two
    lines printed first, or when [input] raises something other than
    [EOFError] and [KeyboardInterrupt]. *)
Definition answer (cb : option callback) (intent command : string) (w : World)
    : result bool :=
  match cb with
  | Some f =>
      match f intent command with
      | Returns v => Ok (truthy v)
      | Raises => Raise CallbackError
      end
  | None =>
      if negb (stdout w (Runner.risk_line intent)) then Raise ConsoleError
      else if negb (stdout w (Runner.command_line command)) then Raise ConsoleError
      else
        match stdin w with
        | Line text :: _ => Ok (String.eqb (Py.strip text) "ALLOW")
        | OtherError :: _ => Raise ConsoleError
        | _ => Ok false
        end
  end.

(** The calls by which the confirmation collaborator is asked. *)
Definition asked (cb : option callback) (intent command : string) (w : World)
    : list event :=
  match cb with
  | Some _ => [CallbackCalled intent command]
  | None =>
      if negb (stdout w (Runner.risk_line intent))
      then [Printed (Runner.risk_line intent)]
      else if negb (stdout w (Runner.command_line command))
      then [Printed (Runner.risk_line intent); Printed (Runner.command_line command)]
      else [Printed (Runner.risk_line intent); Printed (Runner.command_line command);
            Prompted Runner.PROMPT]
  end.

(** Why a run was denied, and on what authority one was allowed. *)
Inductive denial : Set := Blocked | NoAuthorization | Declined.

Inductive authority : Type := NotRequired | ByToken (tok : Json.dict) | Confirmed.

Definition denial_reason (why : denial) (pol : Policy.PolicyResult) : string :=
  match why with
  | Blocked => Policy.reason pol
  | NoAuthorization =>
      "Risky intent denied (no valid token, no interactive confirmation)."
  | Declined => "User declined interactive authorization."
  end.

(** What the ALLOW receipt holds under [key]: the token's, or [None]. *)
Definition token_field (key : string) (auth : authority) : Json.value :=
  match auth with
  | ByToken tok => Receipts.optional (Json.dict_get key tok)
  | NotRequired | Confirmed => Json.JNull
  end.

(** The exceptions [_last_hash] lets through. *)
Definition log_error (e : exn) : Prop :=
  e = JSONDecodeError \/ e = AttributeError \/ e = Unmodelled.

Section WithRuntime.

Context `{RT : PyRuntime}.

(** The text is blank, or its last line is a JSON object. *)
Definition ends_in_object (text : string) : Prop :=
  match last (Py.splitlines (Py.strip text)) with
  | None => True
  | Some line => exists d, Json.loads line = Ok (Json.JObj d)
  end.

(** A day's log a receipt can be chained to: there is no such file, or
    it is blank, or it ends in a JSON object. *)
Definition log_sound (file : option string) : Prop :=
  match file with
  | None => True
  | Some text => ends_in_object text
  end.

(** *** The paths through [run] *)

Section Paths.

Variables (command : string) (skip_confirm : bool) (cb : option callback) (w : World).

Definition first_intent : string := Classifier.classify command.

Definition first_policy : Policy.PolicyResult := Policy.evaluate command first_intent.

(** What the token store answers at the first reading of the clock. *)
Definition token_lookup : result (option Json.dict) :=
  (let* tokens := Json.loads (stored_tokens w) in
   let* items := Json.iter tokens in
   Tokens.first_valid (clock w (ticks w)) first_intent items)%result.

(** The reading of the clock that dates the receipt: the first one, or
    the second when the token store was consulted before. *)
Definition receipt_tick : nat :=
  if Runner.is_block first_policy then ticks w
  else if Policy.requires_auth first_policy then S (ticks w)
  else ticks w.

(** The day's file and its text as the run finds it. *)
Definition day_file : string :=
  Datetime.strftime_ymd (clock w receipt_tick) ++ ".jsonl".

Definition day_log : option string := audit_dir w !! day_file.

(** A gate denies: which one, and the calls made before the receipt. *)
Inductive gate_denies : denial -> list event -> Prop :=
| deny_blocked :
    Runner.is_block first_policy = true ->
    gate_denies Blocked []
| deny_no_authorization :
    Runner.is_block first_policy = false ->
    Policy.requires_auth first_policy = true ->
    token_lookup = Ok None ->
    skip_confirm = true ->
    gate_denies NoAuthorization []
| deny_declined :
    Runner.is_block first_policy = false ->
    Policy.requires_auth first_policy = true ->
    token_lookup = Ok None ->
    skip_confirm = false ->
    answer cb first_intent command w = Ok false ->
    gate_denies Declined (asked cb first_intent command w).

(** Gate 1 (no always-block), Gate 2 (authorized where that is required),
    Gate 3 (the second evaluation does not block) and Gate 4 (no block rule
    matches) are passed, in this order. *)
Inductive gates_pass : authority -> list event -> Prop :=
| pass_not_required :
    Runner.is_block first_policy = false ->
    Policy.requires_auth first_policy = false ->
    Runner.is_block (Policy.evaluate command (Classifier.classify command)) = false ->
    Policy.first_block command = None ->
    gates_pass NotRequired []
| pass_by_token tok :
    Runner.is_block first_policy = false ->
    Policy.requires_auth first_policy = true ->
    token_lookup = Ok (Some tok) ->
    Json.dict_get "token_id" tok <> None ->
    Runner.is_block (Policy.evaluate command (Classifier.classify command)) = false ->
    Policy.first_block command = None ->
    gates_pass (ByToken tok) []
| pass_confirmed :
    Runner.is_block first_policy = false ->
    Policy.requires_auth first_policy = true ->
    token_lookup = Ok None ->
    skip_confirm = false ->
    answer cb first_intent command w = Ok true ->
    Runner.is_block (Policy.evaluate command (Classifier.classify command)) = false ->
    Policy.first_block command = None ->
    gates_pass Confirmed (asked cb first_intent command w).

(** The run is cut short by an exception: the tokens file cannot be read
    through, the token found has no [token_id], the confirmation
    collaborator raises, or, the receipt being due, the day's log is one
    no receipt can be chained to. *)
Inductive aborts : exn -> list event -> Prop :=
| abort_token e :
    Runner.is_block first_policy = false ->
    Policy.requires_auth first_policy = true ->
    token_lookup = Raise e ->
    aborts e []
| abort_token_id tok :
    Runner.is_block first_policy = false ->
    Policy.requires_auth first_policy = true ->
    token_lookup = Ok (Some tok) ->
    Json.dict_get "token_id" tok = None ->
    aborts KeyError []
| abort_confirmation e :
    Runner.is_block first_policy = false ->
    Policy.requires_auth first_policy = true ->
    token_lookup = Ok None ->
    skip_confirm = false ->
    answer cb first_intent command w = Raise e ->
    aborts e (asked cb first_intent command w)
| abort_log_denying e why before :
    gate_denies why before ->
    ~ log_sound day_log ->
    log_error e ->
    aborts e before
| abort_log_allowing e auth before :
    gates_pass auth before ->
    ~ log_sound day_log ->
    log_error e ->
    aborts e before.

Inductive run_path (res : result Runner.RunResult) (w' : World) : Prop :=
| path_denied why before rec :
    gate_denies why before ->
    log_sound day_log ->
    res = Ok (Runner.denied first_intent (denial_reason why first_policy) rec) ->
    effects w w' (before ++ [ReceiptWritten day_file rec])
      (with_line (audit_dir w) day_file rec) ->
    field "decision" rec = Some "DENY" ->
    field "command" rec = Some command ->
    run_path res w'
| path_allowed auth before rec :
    gates_pass auth before ->
    log_sound day_log ->
    res = Ok (Runner.allowed first_intent rec
                (Runner.code_and_output (shell w command))) ->
    effects w w' (before ++ [ReceiptWritten day_file rec; Executed command])
      (with_line (audit_dir w) day_file rec) ->
    field "decision" rec = Some "ALLOW" ->
    field "command" rec = Some command ->
    Json.dict_get "token_id" rec = Some (token_field "token_id" auth) ->
    Json.dict_get "expires_at" rec = Some (token_field "expires_at" auth) ->
    run_path res w'
| path_aborted e before :
    aborts e before ->
    res = Raise e ->
    effects w w' before (audit_dir w) ->
    run_path res w'.

End Paths.

End WithRuntime.

End Trace.

(* ===================================================================== *)
(** ** The words of the specification *)
(* ===================================================================== *)

Module Spec.

Import Env.

(** Some always-block rule matches the command. *)
Definition block_matched (command : string) : Prop :=
  exists rule, In rule Policy._ALWAYS_BLOCK
               /\ Re.search (Policy.pattern rule) command = true.

Definition risky (intent : string) : Prop := intent ∈ Policy.RISKY_INTENTS.

Section WithRuntime.

Context `{RT : PyRuntime}.

(** The record is a token for [intent] whose [expires_at] is a date
    strictly after [now]. *)
Definition live (now : Datetime.datetime) (intent : string) (tok : Json.value) : Prop :=
  exists d text exp,
    tok = Json.JObj d
    /\ Json.dict_get "intent" d = Some (Json.JStr intent)
    /\ Json.dict_get "expires_at" d = Some (Json.JStr text)
    /\ fromisoformat text = Some exp
    /\ Datetime.gtb exp now = true.




(** The record links to [prev] and carries the digest of its other fields. *)
Definition sealed (prev : string) (d : Json.dict) : Prop :=
  Json.dict_get "prev_hash" d = Some (Json.JStr prev)
  /\ Json.dict_get "hash" d = Some (Json.JStr (Receipts._compute_hash d)).

(** Every record is sealed on the one before, the first on [prev]. *)
Fixpoint chained (prev : string) (records : list Json.value) : Prop :=
  match records with
  | [] => True
  | Json.JObj d :: rest => sealed prev d /\ chained (Receipts._compute_hash d) rest
  | _ :: _ => False
  end.

(** The [hash] the next record has to link to. *)
Fixpoint chain_end (prev : string) (records : list Json.value) : string :=
  match records with
  | [] => prev
  | Json.JObj d :: rest => chain_end (Receipts._compute_hash d) rest
  | _ :: rest => chain_end prev rest
  end.

(** What [v[:16]] is defined on, a missing field included. *)
Definition sliceable (o : option Json.value) : Prop :=
  match o with
  | None | Some (Json.JStr _) | Some (Json.JArr _) => True
  | _ => False
  end.

End WithRuntime.

End Spec.

(* ===================================================================== *)
(** ** Scenarios *)
(* ===================================================================== *)

Module Scenario.

Import Env.

Definition at_time (h m : N) : Datetime.datetime :=
  {| Datetime.year := 2024; Datetime.month := 3; Datetime.day := 9;
     Datetime.hour := h; Datetime.minute := m; Datetime.second := 0;
     Datetime.microsecond := 0 |}.

Definition noon : Datetime.datetime := at_time 12 0.



(** The text of a tokens file that holds the records. *)
Definition tokens_text (records : list Json.value) : string :=
  Json.dumps false (Json.JArr records).

(** An empty audit directory at noon, a tokens file with the records, a
    terminal that takes every line; every command exits with 0. *)
Definition world (records : list Json.value) (typed : list stdin_event) : World :=
  {| audit_dir := ∅; tokens_file := Some (tokens_text records);
     clock := fun _ => noon; ticks := 0;
     stdin := typed; stdout := fun _ => true;
     shell := fun _ => Completed 0 EmptyString EmptyString;
     calls := [] |}.


(** U+0085, NEXT LINE. *)
Definition nel : string := String (Py.chr 133) EmptyString.

(** The file of the day the scenarios play on. *)
Definition day : string := "2024-03-09.jsonl".




(** The world after [write_receipt] was called on each command in turn. *)
Fixpoint after_writes `{RT : PyRuntime} (commands : list string) (w : World) : World :=
  match commands with
  | [] => w
  | command :: rest =>
      after_writes rest
        (snd (Receipts.write_receipt "safe_echo" command "ALLOW" "ok" None None w))
  end.

(** [xs[i] = y] *)
Fixpoint set_nth {A : Type} (i : nat) (y : A) (xs : list A) : list A :=
  match i, xs with
  | _, [] => []
  | O, _ :: rest => y :: rest
  | S i', x :: rest => x :: set_nth i' y rest
  end.

(** The tampering of the test suite: line [i] of the file is read, its
    field [key] set to [v], and the record written back. *)
Definition tamper `{RT : PyRuntime} (i : nat) (key : string) (v : Json.value)
    (text : string) : string :=
  let lines := Receipts.lines_of text in
  match nth_error lines i with
  | Some line =>
      match Json.loads line with
      | Ok (Json.JObj record) =>
          let line' := Json.dumps false (Json.JObj (Json.dict_set key v record)) in
          Json.join Receipts.newline (set_nth i line' lines) ++ Receipts.newline
      | _ => text
      end
  | None => text
  end.

End Scenario.

(* ===================================================================== *)
(** * Properties *)
(* ===================================================================== *)

(** ** The JSON reader raises nothing but its own errors *)

Lemma benign_raise_decode {A : Type} : benign (@Raise A JSONDecodeError).
Proof. left; reflexivity. Qed.

Lemma benign_raise_unmodelled {A : Type} : benign (@Raise A Unmodelled).
Proof. right; reflexivity. Qed.

Lemma benign_ok {A : Type} (a : A) : benign (Ok a).
Proof. exact Logic.I. Qed.

Lemma benign_bind {A B : Type} (r : result A) (k : A -> result B) :
  benign r -> (forall a, benign (k a)) -> benign (rbind r k).
Proof. destruct r as [a|e]; simpl; auto. Qed.

Arguments benign : simpl never.

Create HintDb benign.
#[local] Hint Resolve benign_raise_decode benign_raise_unmodelled benign_ok : benign.

Ltac benign_cases :=
  repeat first
    [ progress auto with benign
    | match goal with
      | |- benign (if ?b then _ else _) => destruct b
      | |- benign (match ?x with _ => _ end) => destruct x
      | |- benign (let (_, _) := ?x in _) => destruct x
      end ].

Lemma scanstring_benign_upto (n : nat) :
  forall s acc, (List.length s <= n)%nat -> benign (Json.scanstring s acc).
Proof.
  induction n as [|n IH]; intros s acc Hlen.
  - destruct s; [simpl; auto with benign | simpl in Hlen; lia].
  - destruct s as [|c rest]; [simpl; auto with benign|].
    simpl in Hlen. simpl.
    destruct (Ascii.eqb c Json.dquote); [auto with benign|].
    destruct (Ascii.eqb c Json.backslash).
    + destruct rest as [|e rest1]; [auto with benign|].
      destruct (Ascii.eqb e "u").
      * destruct rest1 as [|h3 [|h2 [|h1 [|h0 rest2]]]]; auto with benign.
        destruct (Json.hex_val h3), (Json.hex_val h2), (Json.hex_val h1),
          (Json.hex_val h0); auto with benign.
        destruct ((_ =? 0)%N && (_ =? 0)%N); auto with benign.
        apply IH. simpl in Hlen. lia.
      * destruct (Json.unescape e); auto with benign.
        apply IH. simpl in Hlen. lia.
    + destruct (Py.code c <? 32)%N; auto with benign.
      apply IH. lia.
Qed.

Lemma scanstring_benign s acc : benign (Json.scanstring s acc).
Proof. apply (scanstring_benign_upto (List.length s)); lia. Qed.

Section JsonBenign.

Context `{RT : PyRuntime}.

Lemma parse_number_benign s : benign (Json.parse_number s).
Proof. unfold Json.parse_number. benign_cases. Qed.

Lemma parse_atom_benign s : benign (Json.parse_atom s).
Proof.
  unfold Json.parse_atom.
  destruct (Json.first_of _); [auto with benign | apply parse_number_benign].
Qed.

Lemma parse_benign (n : nat) :
  (forall s, benign (Json.parse_value n s))
  /\ (forall s acc, benign (Json.parse_elements n s acc))
  /\ (forall s acc, benign (Json.parse_members n s acc)).
Proof.
  induction n as [|n (IHv & IHe & IHm)].
  - repeat split; intros; simpl; auto with benign.
  - repeat split.
    + intros s. simpl. destruct s as [|c rest]; [auto with benign|].
      destruct (Ascii.eqb c Json.dquote).
      { apply benign_bind; [apply scanstring_benign|].
        intros [str rest1]. auto with benign. }
      destruct (Ascii.eqb c "{").
      { destruct (Json.skip_ws rest) as [|c1 rest1]; [auto with benign|].
        destruct (Ascii.eqb c1 "}"); [auto with benign | apply IHm]. }
      destruct (Ascii.eqb c "[").
      { destruct (Json.skip_ws rest) as [|c1 rest1]; [auto with benign|].
        destruct (Ascii.eqb c1 "]"); [auto with benign | apply IHe]. }
      apply parse_atom_benign.
    + intros s acc. simpl.
      apply benign_bind; [apply IHv|]. intros [v rest].
      destruct (Json.skip_ws rest) as [|c rest1]; [auto with benign|].
      destruct (Ascii.eqb c "]"); [auto with benign|].
      destruct (Ascii.eqb c ","); [apply IHe | auto with benign].
    + intros s acc. simpl.
      destruct s as [|q rest]; [auto with benign|].
      destruct (Ascii.eqb q Json.dquote); [|auto with benign].
      apply benign_bind; [apply scanstring_benign|]. intros [key rest1].
      destruct (Json.skip_ws rest1) as [|colon rest2]; [auto with benign|].
      destruct (Ascii.eqb colon ":"); [|auto with benign].
      apply benign_bind; [apply IHv|]. intros [v rest3].
      destruct (Json.skip_ws rest3) as [|c rest4]; [auto with benign|].
      destruct (Ascii.eqb c "}"); [auto with benign|].
      destruct (Ascii.eqb c ","); [apply IHm | auto with benign].
Qed.

Lemma loads_benign text : benign (Json.loads text).
Proof.
  unfold Json.loads.
  apply benign_bind; [apply parse_benign|]. intros [v rest].
  destruct (Json.skip_ws rest); auto with benign.
Qed.

(** [_last_hash] either reads a value or raises one of three errors. *)
Lemma last_hash_of_error file e :
  Receipts.last_hash_of file = Raise e -> Trace.log_error e.
Proof.
  unfold Receipts.last_hash_of, Trace.log_error.
  destruct file as [text|]; [|discriminate].
  destruct (last _) as [line|]; [|discriminate].
  pose proof (loads_benign line) as Hb.
  destruct (Json.loads line) as [v|e']; simpl.
  - destruct v; intros H; inversion H; auto.
  - intros H; inversion H; subst. destruct Hb as [-> | ->]; auto.
Qed.

End JsonBenign.

(** ** One step of each collaborator *)

Import Env Trace.

Lemma is_block_iff command intent :
  Runner.is_block (Policy.evaluate command intent) = true
  <-> Policy.first_block command <> None.
Proof.
  unfold Runner.is_block, Policy.evaluate.
  destruct (Policy.first_block command) as [rule|]; simpl.
  - split; [discriminate | reflexivity].
  - destruct (bool_decide _); simpl; split; congruence.
Qed.

Lemma not_block_none command intent :
  Runner.is_block (Policy.evaluate command intent) = false ->
  Policy.first_block command = None.
Proof.
  intros H. destruct (Policy.first_block command) eqn:E; [|reflexivity].
  assert (Runner.is_block (Policy.evaluate command intent) = true) as Ht.
  { apply is_block_iff. congruence. }
  congruence.
Qed.

Lemma effects_refl w : effects w w [] (audit_dir w).
Proof. constructor; try reflexivity. symmetry; apply app_nil_r. Qed.

Lemma effects_trans w w1 w2 e1 e2 d2 :
  effects w w1 e1 (audit_dir w) -> effects w1 w2 e2 d2 ->
  effects w w2 (e1 ++ e2) d2.
Proof.
  intros [c1 f1 t1 o1 s1 k1] [c2 f2 t2 o2 s2 k2].
  constructor; try congruence.
  rewrite c2, c1. symmetry. apply app_assoc.
Qed.

Ltac world_fields :=
  cbn [audit_dir tokens_file clock ticks stdin stdout shell calls].

Section Primitives.
Context `{RT : PyRuntime}.

(** The search through the tokens raises nothing but these three. *)
Lemma first_valid_error now intent tokens e :
  Tokens.first_valid now intent tokens = Raise e ->
  e = KeyError \/ e = TypeError \/ e = ValueError.
Proof.
  induction tokens as [|tok rest IH]; simpl; [discriminate|].
  destruct tok as [| | | | | |d]; try (intros H; inversion H; auto).
  revert H.
  destruct (Json.dict_get "intent" d) as [stored|]; [|intros H; inversion H; auto].
  destruct (negb _); [exact IH|].
  destruct (Json.dict_get "expires_at" d) as [[| | | |text| |]|];
    try (intros H; inversion H; auto).
  revert H.
  destruct (fromisoformat text); [|intros H; inversion H; auto].
  destruct (Datetime.gtb _ _); [discriminate | exact IH].
Qed.

(** The token the search answers with is a live token of the list. *)
Lemma first_valid_some now intent tokens tok :
  Tokens.first_valid now intent tokens = Ok (Some tok) ->
  In (Json.JObj tok) tokens /\ Spec.live now intent (Json.JObj tok).
Proof.
  induction tokens as [|item rest IH]; simpl; [discriminate|].
  destruct item as [| | | | | |d]; try discriminate.
  destruct (Json.dict_get "intent" d) as [stored|] eqn:Ei; [|discriminate].
  destruct (Json.is_str intent stored) eqn:Es; simpl.
  2:{ intros H. destruct (IH H). auto. }
  destruct (Json.dict_get "expires_at" d) as [[| | | |text| |]|] eqn:Ex; try discriminate.
  destruct (fromisoformat text) as [exp|] eqn:Ef; [|discriminate].
  destruct (Datetime.gtb exp now) eqn:Eg.
  - intros H. injection H as <-. split; [left; reflexivity|].
    exists d, text, exp. repeat split; try assumption.
    destruct stored; try discriminate. simpl in Es.
    apply String.eqb_eq in Es. subst. exact Ei.
  - intros H. destruct (IH H). auto.
Qed.



(** A log is sound exactly when [_last_hash] reads a hash from it. *)
Lemma log_sound_iff file :
  log_sound file <-> exists prev, Receipts.last_hash_of file = Ok prev.
Proof.
  unfold log_sound, ends_in_object, Receipts.last_hash_of, Receipts.lines_of.
  destruct file as [text|]; [|split; eauto].
  destruct (last _) as [line|]; [|split; eauto].
  split.
  - intros (d & ->). simpl. eauto.
  - intros (prev & H). destruct (Json.loads line) as [v|e]; [|discriminate].
    destruct v; try discriminate. eauto.
Qed.

Lemma last_hash_of_raises file e :
  Receipts.last_hash_of file = Raise e -> ~ log_sound file.
Proof. rewrite log_sound_iff. intros H (prev & Hp). congruence. Qed.

Lemma write_receipt_outcome intent command decision reason tid exp w :
  let file := Datetime.strftime_ymd (clock w (ticks w)) ++ ".jsonl" in
  (log_sound (audit_dir w !! file)
   /\ exists rec w',
      Receipts.write_receipt intent command decision reason tid exp w = (Ok rec, w')
      /\ effects w w' [ReceiptWritten file rec] (with_line (audit_dir w) file rec)
      /\ field "decision" rec = Some decision
      /\ field "command" rec = Some command
      /\ Json.dict_get "token_id" rec = Some (Receipts.optional tid)
      /\ Json.dict_get "expires_at" rec = Some (Receipts.optional exp))
  \/ (~ log_sound (audit_dir w !! file)
      /\ exists e w',
      Receipts.write_receipt intent command decision reason tid exp w = (Raise e, w')
      /\ log_error e
      /\ effects w w' [] (audit_dir w)).
Proof.
  intros file.
  unfold Receipts.write_receipt, Receipts._today_file, Receipts._last_hash.
  unfold Env.bind, Env.now, Env.read_file, Env.lift, Env.ret, Env.append_file, Env.emit.
  world_fields. fold file.
  destruct (Receipts.last_hash_of (audit_dir w !! file)) as [prev|e] eqn:E.
  - left. split; [apply log_sound_iff; eauto|].
    eexists _, _. split; [reflexivity|].
    split; [constructor; reflexivity|].
    repeat split; reflexivity.
  - right. split; [eapply last_hash_of_raises; eassumption|].
    eexists _, _. split; [reflexivity|].
    split; [eapply last_hash_of_error; eassumption|].
    constructor; try reflexivity. symmetry; apply app_nil_r.
Qed.

Lemma find_valid_token_outcome intent w :
  exists w1,
    Tokens.find_valid_token intent w
      = ((let* tokens := Json.loads (stored_tokens w) in
          let* items := Json.iter tokens in
          Tokens.first_valid (clock w (ticks w)) intent items)%result, w1)
    /\ effects w w1 [] (audit_dir w)
    /\ stdin w1 = stdin w
    /\ ticks w1 = S (ticks w).
Proof.
  unfold Tokens.find_valid_token, Tokens._load_tokens, Tokens._ensure_store.
  unfold Env.bind, Env.now, Env.tokens_file_exists, Env.read_tokens_file,
    Env.write_tokens_file, Env.ret, Env.lift, stored_tokens.
  world_fields.
  destruct (tokens_file w) as [text|] eqn:Efile; world_fields; cbn [default];
    destruct (Json.loads _) as [tokens|e]; cbn [rbind];
    (eexists; split; [reflexivity|]; split; [|split; reflexivity];
     constructor; world_fields; try reflexivity;
     [symmetry; apply app_nil_r | unfold stored_tokens; world_fields;
                                  try rewrite Efile; reflexivity]).
Qed.

Lemma execute_command_outcome command w :
  exists w',
    Runner._execute_command command w
      = (Ok (Runner.code_and_output (shell w command)), w')
    /\ effects w w' [Executed command] (audit_dir w).
Proof.
  unfold Runner._execute_command, Env.bind, Env.emit, Env.subprocess_run, Env.ret.
  world_fields.
  eexists. split; [reflexivity|]. constructor; reflexivity.
Qed.

(** The confirmation collaborator: its answer, or the exception raised. *)
Lemma confirmation_outcome cb intent command w :
  exists w1,
    (match cb with
     | Some f => Env.bind (Runner.call_callback f intent command)
                   (fun v => Env.ret (truthy v))
     | None => Runner._interactive_confirm intent command
     end) w
    = (answer cb intent command w, w1)
    /\ effects w w1 (asked cb intent command w) (audit_dir w)
    /\ ticks w1 = ticks w.
Proof.
  unfold answer, asked.
  destruct cb as [f|].
  - unfold Runner.call_callback, Env.bind, Env.emit, Env.ret, Env.raise.
    world_fields.
    destruct (f intent command) as [v|];
      (eexists; split; [reflexivity | split; [constructor|]; reflexivity]).
  - unfold Runner._interactive_confirm, Env.print, Env.input, Env.bind, Env.emit,
      Env.ret, Env.raise.
    world_fields.
    destruct (stdout w (Runner.risk_line intent)); cbn [negb];
      [|eexists; split; [reflexivity | split; [constructor|]; reflexivity]].
    world_fields.
    destruct (stdout w (Runner.command_line command)); cbn [negb];
      [|eexists; split; [reflexivity | split; [constructor|]; world_fields;
                                        rewrite <- ?app_assoc; reflexivity]].
    world_fields.
    destruct (stdin w) as [|[text| | |] rest]; world_fields;
      (eexists; split; [reflexivity | split; [constructor|]; world_fields;
                                      rewrite <- ?app_assoc; reflexivity]).
Qed.

End Primitives.

(** ** Denying and executing *)

Ltac conj_assumption :=
  repeat match goal with |- _ /\ _ => split end; try assumption; try reflexivity.

Section Gates.
Context `{RT : PyRuntime}.

Lemma deny_outcome intent command reason w :
  let file := Datetime.strftime_ymd (clock w (ticks w)) ++ ".jsonl" in
  (log_sound (audit_dir w !! file)
   /\ exists rec w',
      Runner.deny intent command reason w = (Ok (Runner.denied intent reason rec), w')
      /\ effects w w' [ReceiptWritten file rec] (with_line (audit_dir w) file rec)
      /\ field "decision" rec = Some "DENY"
      /\ field "command" rec = Some command)
  \/ (~ log_sound (audit_dir w !! file)
      /\ exists e w',
      Runner.deny intent command reason w = (Raise e, w')
      /\ log_error e
      /\ effects w w' [] (audit_dir w)).
Proof.
  cbv zeta. unfold Runner.deny, Env.bind.
  destruct (write_receipt_outcome intent command "DENY" reason None None w)
    as [(Hs & rec & w' & -> & He & Hd & Hc & _) | (Hn & e & w' & -> & Hl & He)].
  - left. split; [exact Hs|]. exists rec, w'. split; [reflexivity|]. conj_assumption.
  - right. split; [exact Hn|]. exists e, w'. split; [reflexivity|]. conj_assumption.
Qed.

Lemma execute_checked_outcome command intent pol tid exp w :
  Runner.is_block (Policy.evaluate command (Classifier.classify command)) = false ->
  let file := Datetime.strftime_ymd (clock w (ticks w)) ++ ".jsonl" in
  (log_sound (audit_dir w !! file)
   /\ exists rec w',
      Runner.execute_checked command intent pol tid exp w
        = (Ok (Runner.allowed intent rec (Runner.code_and_output (shell w command))), w')
      /\ effects w w' [ReceiptWritten file rec; Executed command]
           (with_line (audit_dir w) file rec)
      /\ field "decision" rec = Some "ALLOW"
      /\ field "command" rec = Some command
      /\ Json.dict_get "token_id" rec = Some (Receipts.optional tid)
      /\ Json.dict_get "expires_at" rec = Some (Receipts.optional exp))
  \/ (~ log_sound (audit_dir w !! file)
      /\ exists e w',
      Runner.execute_checked command intent pol tid exp w = (Raise e, w')
      /\ log_error e
      /\ effects w w' [] (audit_dir w)).
Proof.
  intros Hpass. cbv zeta. unfold Runner.execute_checked. rewrite Hpass. unfold Env.bind.
  destruct (write_receipt_outcome intent command "ALLOW" (Runner.allow_reason pol) tid exp w)
    as [(Hs & rec & w1 & -> & He & Hd & Hc & Ht & Hx) | (Hn & e & w1 & -> & Hl & He)].
  - left. split; [exact Hs|].
    destruct (execute_command_outcome command w1) as (w' & -> & He').
    exists rec, w'. unfold Env.ret.
    rewrite (eff_shell _ _ _ _ He).
    split; [reflexivity|].
    split; [|conj_assumption].
    destruct He as [c1 f1 t1 o1 s1 k1], He' as [c2 f2 t2 o2 s2 k2].
    constructor; try congruence.
    rewrite c2, c1, <- app_assoc. reflexivity.
  - right. split; [exact Hn|]. exists e, w1. split; [reflexivity|]. conj_assumption.
Qed.

End Gates.

(** ** The paths of a run *)

Ltac conclude Heq Hrun :=
  cbv beta iota delta [negb] in Hrun; rewrite Heq in Hrun; cbv beta iota in Hrun;
  injection Hrun as <- <-.

Section Paths.
Context `{RT : PyRuntime}.

Lemma effects_quiet w w1 w2 evs :
  effects w w1 evs (audit_dir w) ->
  effects w1 w2 [] (audit_dir w) ->
  effects w w2 evs (audit_dir w).
Proof.
  intros H1 H2. rewrite <- (app_nil_r evs).
  exact (effects_trans _ _ _ _ _ _ H1 H2).
Qed.

(** The day's file as a later step of the run names it. *)
Lemma day_file_later w w1 evs tick :
  effects w w1 evs (audit_dir w) -> ticks w1 = tick ->
  Datetime.strftime_ymd (clock w1 (ticks w1)) ++ ".jsonl"
  = Datetime.strftime_ymd (clock w tick) ++ ".jsonl"
  /\ audit_dir w1 = audit_dir w.
Proof.
  intros He <-. rewrite (eff_clock _ _ _ _ He). split; [reflexivity|].
  exact (eff_files _ _ _ _ He).
Qed.

Lemma tick_blocked command w :
  Runner.is_block (first_policy command) = true ->
  receipt_tick command w = ticks w.
Proof. unfold receipt_tick. intros ->. reflexivity. Qed.

Lemma tick_unasked command w :
  Runner.is_block (first_policy command) = false ->
  Policy.requires_auth (first_policy command) = false ->
  receipt_tick command w = ticks w.
Proof. unfold receipt_tick. intros -> ->. reflexivity. Qed.

Lemma tick_looked_up command w :
  Runner.is_block (first_policy command) = false ->
  Policy.requires_auth (first_policy command) = true ->
  receipt_tick command w = S (ticks w).
Proof. unfold receipt_tick. intros -> ->. reflexivity. Qed.

(** Every run follows one of the paths: a gate denies, all gates pass, or
    an exception cuts it short. *)
Lemma run_follows_path command skip cb w res w' :
  Runner.run command skip cb w = (res, w') ->
  run_path command skip cb w res w'.
Proof.
  unfold Runner.run.
  fold (first_intent command). fold (first_policy command).
  intros Hrun.
  destruct (Runner.is_block (first_policy command)) eqn:Hblock.
  { (* Gate 1 *)
    pose proof (tick_blocked command w Hblock) as Htick.
    destruct (deny_outcome (first_intent command) command
                (Policy.reason (first_policy command)) w)
      as [(Hs & rec & w'' & Heq & He & Hd & Hc) | (Hn & e & w'' & Heq & Hl & He)];
      conclude Heq Hrun.
    - eapply (path_denied _ _ _ _ _ _ Blocked []); eauto using deny_blocked;
        unfold day_log, day_file; rewrite Htick; assumption.
    - eapply path_aborted with (before := []); eauto.
      eapply abort_log_denying; eauto using deny_blocked.
      unfold day_log, day_file; rewrite Htick; assumption. }
  assert (Hpass : Runner.is_block
            (Policy.evaluate command (Classifier.classify command)) = false)
    by exact Hblock.
  assert (Hnone : Policy.first_block command = None)
    by exact (not_block_none _ _ Hblock).
  destruct (Policy.requires_auth (first_policy command)) eqn:Hauth.
  2:{ (* no authorization required *)
    pose proof (tick_unasked command w Hblock Hauth) as Htick.
    destruct (execute_checked_outcome command (first_intent command)
                (first_policy command) None None w Hpass)
      as [(Hs & rec & w'' & Heq & He & Hd & Hc & Ht & Hx)
         | (Hn & e & w'' & Heq & Hl & He)];
      conclude Heq Hrun.
    - eapply (path_allowed _ _ _ _ _ _ NotRequired []);
        eauto using pass_not_required;
        unfold day_log, day_file; rewrite Htick; assumption.
    - eapply path_aborted with (before := []); eauto.
      eapply abort_log_allowing; eauto using pass_not_required.
      unfold day_log, day_file; rewrite Htick; assumption. }
  pose proof (tick_looked_up command w Hblock Hauth) as Htick.
  (* Gate 2a: the token store *)
  unfold Env.bind at 1 in Hrun.
  destruct (find_valid_token_outcome (first_intent command) w)
    as (w1 & Hfind & He1 & Hin1 & Ht1).
  rewrite Hfind in Hrun. clear Hfind.
  fold (token_lookup command w) in Hrun.
  destruct (day_file_later w w1 [] _ He1 Ht1) as (Hfile1 & Hdir1).
  destruct (token_lookup command w) as [[tok|]|e] eqn:Htok.
  3:{ cbv beta iota in Hrun; injection Hrun as <- <-.
      eapply path_aborted with (before := []); eauto using abort_token. }
  { (* a valid token *)
    assert (Hlive : Spec.live (clock w (ticks w)) (first_intent command) (Json.JObj tok)).
    { unfold token_lookup in Htok.
      destruct (Json.loads _) as [tokens|]; [|discriminate]. cbn [rbind] in Htok.
      destruct (Json.iter tokens) as [items|]; [|discriminate]. cbn [rbind] in Htok.
      apply first_valid_some in Htok. tauto. }
    destruct Hlive as (d & text & exp & Heqd & Hi & Hx & _).
    injection Heqd as <-.
    assert (Hfound : Runner.found (Some tok) = Some tok).
    { destruct tok; [discriminate | reflexivity]. }
    cbv beta iota in Hrun. rewrite Hfound in Hrun.
    unfold Env.bind at 1, Env.lift at 1, Json.getitem at 1 in Hrun.
    destruct (Json.dict_get "token_id" tok) as [tid|] eqn:Htid.
    2:{ injection Hrun as <- <-.
        eapply path_aborted with (before := []); eauto using abort_token_id. }
    unfold Env.bind at 1, Env.lift at 1, Json.getitem at 1 in Hrun.
    rewrite Hx in Hrun.
    destruct (execute_checked_outcome command (first_intent command)
                (first_policy command) (Some tid) (Some (Json.JStr text)) w1 Hpass)
      as [(Hs & rec & w'' & Heq & He & Hd & Hc & Ht & Hxx)
         | (Hn & e & w'' & Heq & Hl & He)];
      rewrite Hfile1, Hdir1 in *.
    - rewrite (eff_shell _ _ _ _ He1) in Heq.
      conclude Heq Hrun.
      eapply (path_allowed _ _ _ _ _ _ (ByToken tok) []);
        try (unfold day_log, day_file; rewrite Htick); eauto.
      + eapply pass_by_token; eauto. congruence.
      + exact (effects_trans _ _ _ _ _ _ He1 He).
      + simpl. rewrite Htid. exact Ht.
      + simpl. rewrite Hx. exact Hxx.
    - conclude Heq Hrun.
      eapply path_aborted with (before := []); eauto using effects_quiet.
      eapply abort_log_allowing; eauto.
      + eapply pass_by_token; eauto. congruence.
      + unfold day_log, day_file; rewrite Htick; assumption. }
  cbv beta iota delta [Runner.found] in Hrun.
  destruct skip.
  { (* non-interactive, no token *)
    destruct (deny_outcome (first_intent command) command
                "Risky intent denied (no valid token, no interactive confirmation)." w1)
      as [(Hs & rec & w'' & Heq & He & Hd & Hc) | (Hn & e & w'' & Heq & Hl & He)];
      rewrite Hfile1, Hdir1 in *; conclude Heq Hrun.
    - eapply (path_denied _ _ _ _ _ _ NoAuthorization []);
        try (unfold day_log, day_file; rewrite Htick);
        eauto using deny_no_authorization.
      exact (effects_trans _ _ _ _ _ _ He1 He).
    - eapply path_aborted with (before := []); eauto using effects_quiet.
      eapply abort_log_denying; eauto using deny_no_authorization.
      unfold day_log, day_file; rewrite Htick; assumption. }
  (* Gate 2b: the confirmation collaborator *)
  unfold Env.bind at 1 in Hrun.
  destruct (confirmation_outcome cb (first_intent command) command w1)
    as (w2 & Hconf & He2 & Ht2).
  rewrite Hconf in Hrun. clear Hconf.
  assert (Hans : answer cb (first_intent command) command w1
                 = answer cb (first_intent command) command w).
  { unfold answer. rewrite Hin1, (eff_stdout _ _ _ _ He1). reflexivity. }
  assert (Hasked : asked cb (first_intent command) command w1
                   = asked cb (first_intent command) command w).
  { unfold asked. rewrite (eff_stdout _ _ _ _ He1). reflexivity. }
  rewrite Hans in Hrun. rewrite Hasked in He2. clear Hans Hasked.
  pose proof (effects_trans _ _ _ _ _ _ He1 He2) as He12. simpl in He12.
  rewrite (eff_files _ _ _ _ He1) in He12.
  destruct (day_file_later w w2 _ (S (ticks w)) He12 ltac:(congruence))
    as (Hfile2 & Hdir2).
  destruct (answer cb (first_intent command) command w) as [[|]|e] eqn:Hanswer.
  - (* affirmative *)
    destruct (execute_checked_outcome command (first_intent command)
                (first_policy command) None None w2 Hpass)
      as [(Hs & rec & w'' & Heq & He & Hd & Hc & Ht & Hx)
         | (Hn & e & w'' & Heq & Hl & He)];
      rewrite Hfile2, Hdir2 in *.
    + rewrite (eff_shell _ _ _ _ He12) in Heq.
      conclude Heq Hrun.
      eapply (path_allowed _ _ _ _ _ _ Confirmed);
        try (unfold day_log, day_file; rewrite Htick);
        eauto using pass_confirmed.
      exact (effects_trans _ _ _ _ _ _ He12 He).
    + conclude Heq Hrun.
      eapply path_aborted; eauto using effects_quiet.
      eapply abort_log_allowing; eauto using pass_confirmed.
      unfold day_log, day_file; rewrite Htick; assumption.
  - (* declined *)
    destruct (deny_outcome (first_intent command) command
                "User declined interactive authorization." w2)
      as [(Hs & rec & w'' & Heq & He & Hd & Hc) | (Hn & e & w'' & Heq & Hl & He)];
      rewrite Hfile2, Hdir2 in *; conclude Heq Hrun.
    + eapply (path_denied _ _ _ _ _ _ Declined);
        try (unfold day_log, day_file; rewrite Htick);
        eauto using deny_declined.
      exact (effects_trans _ _ _ _ _ _ He12 He).
    + eapply path_aborted; eauto using effects_quiet.
      eapply abort_log_denying; eauto using deny_declined.
      unfold day_log, day_file; rewrite Htick; assumption.
  - (* no answer *)
    cbv beta iota in Hrun; injection Hrun as <- <-.
    eapply path_aborted; eauto using abort_confirmation.
Qed.

End Paths.

(** ** Policy and classifier *)

Lemma block_matched_iff command :
  Spec.block_matched command <-> Policy.first_block command <> None.
Proof.
  unfold Spec.block_matched, Policy.first_block. split.
  - intros (rule & Hin & Hm) Hnone.
    pose proof (List.find_none _ _ Hnone rule Hin) as Hf. simpl in Hf. congruence.
  - destruct (List.find _ _) as [rule|] eqn:E; [|congruence].
    intros _. apply List.find_some in E. exists rule. exact E.
Qed.

Lemma risky_intents intent :
  Spec.risky intent <->
  intent = Classifier.FILE_DELETE \/ intent = Classifier.PRIVILEGE_ESCALATION
  \/ intent = Classifier.PROCESS_KILL \/ intent = Classifier.SYSTEM_CONFIG.
Proof.
  unfold Spec.risky, Policy.RISKY_INTENTS.
  rewrite !elem_of_union, !elem_of_singleton. tauto.
Qed.

Lemma blocked_no_auth command intent :
  Spec.block_matched command ->
  Policy.requires_auth (Policy.evaluate command intent) = false.
Proof.
  intros Hm. apply block_matched_iff in Hm.
  unfold Policy.evaluate.
  destruct (Policy.first_block command); [reflexivity | congruence].
Qed.

(** C8. For every command and intent, the result of [evaluate] has
    [requires_auth] true only when its decision is DENY, and whenever a
    block rule matches the command [requires_auth] is false. *)
Theorem evaluate_requires_auth_invariant (command intent : string) :
  (Policy.requires_auth (Policy.evaluate command intent) = true ->
   Policy.decision (Policy.evaluate command intent) = Policy.DENY)
  /\ (Spec.block_matched command ->
      Policy.requires_auth (Policy.evaluate command intent) = false).
Proof.
  split.
  - unfold Policy.evaluate.
    destruct (Policy.first_block command); [discriminate|].
    destruct (bool_decide _); [reflexivity | discriminate].
  - apply blocked_no_auth.
Qed.

Lemma classify_in_rules command :
  Classifier.classify command = Classifier.SHELL_RUN
  \/ exists rule, In rule Classifier._RULES
                  /\ Classifier.classify command = Classifier.intent rule.
Proof.
  unfold Classifier.classify.
  destruct (List.find _ _) as [rule|] eqn:E; [|left; reflexivity].
  right. exists rule. apply List.find_some in E. tauto.
Qed.

Lemma rule_intents_known :
  forallb (fun rule => existsb (String.eqb (Classifier.intent rule)) Classifier.ALL_INTENTS)
    Classifier._RULES = true.
Proof. vm_compute. reflexivity. Qed.

Lemma classify_total command : In (Classifier.classify command) Classifier.ALL_INTENTS.
Proof.
  destruct (classify_in_rules command) as [-> | (rule & Hin & ->)].
  - simpl. tauto.
  - pose proof rule_intents_known as H.
    rewrite forallb_forall in H. specialize (H rule Hin).
    apply existsb_exists in H. destruct H as (i & Hi & Heq).
    apply String.eqb_eq in Heq. congruence.
Qed.

(** C4. ["rm -rf /"] is classified as file-delete, a risky intent, and yet
    evaluated to DENY without [requires_auth]: for every command a block
    rule matches, whatever the intent (risky or not), the result is the
    block rule's DENY. *)
Theorem block_gate_before_risk_gate :
  Classifier.classify "rm -rf /" = Classifier.FILE_DELETE
  /\ Spec.risky Classifier.FILE_DELETE
  /\ Policy.decision (Policy.evaluate "rm -rf /" Classifier.FILE_DELETE) = Policy.DENY
  /\ Policy.requires_auth (Policy.evaluate "rm -rf /" Classifier.FILE_DELETE) = false
  /\ (forall command intent rule,
        Policy.first_block command = Some rule ->
        Policy.evaluate command intent
        = {| Policy.decision := Policy.DENY;
             Policy.reason := "BLOCKED: " ++ Policy.description rule;
             Policy.requires_auth := false;
             Policy.suggestion := Policy._suggestion_for (Policy.description rule) |}).
Proof.
  split; [vm_compute; reflexivity|].
  split; [apply risky_intents; left; reflexivity|].
  split; [vm_compute; reflexivity|].
  split; [vm_compute; reflexivity|].
  intros command intent rule H. unfold Policy.evaluate. rewrite H. reflexivity.
Qed.


Section Aborts.
Context `{RT : PyRuntime}.

Lemma token_lookup_error command w e :
  token_lookup command w = Raise e ->
  e = JSONDecodeError \/ e = Unmodelled \/ e = KeyError \/ e = TypeError \/ e = ValueError.
Proof.
  unfold token_lookup.
  pose proof (loads_benign (stored_tokens w)) as Hb.
  destruct (Json.loads _) as [tokens|e']; cbn [rbind].
  - destruct tokens; cbn [Json.iter rbind];
      try (intros H; apply first_valid_error in H; tauto);
      intros H; inversion H; auto.
  - intros H. inversion H; subst. destruct Hb as [-> | ->]; auto.
Qed.


Lemma answer_error cb intent command w e :
  answer cb intent command w = Raise e -> e = CallbackError \/ e = ConsoleError.
Proof.
  unfold answer. destruct cb as [f|].
  - destruct (f intent command); intros H; inversion H; auto.
  - destruct (negb _); [intros H; inversion H; auto|].
    destruct (negb _); [intros H; inversion H; auto|].
    destruct (stdin w) as [|[| | |] ?]; intros H; inversion H; auto.
Qed.

Lemma aborts_not_blocked command skip cb w e before reason :
  aborts command skip cb w e before -> e <> ExecutionBlocked reason.
Proof.
  intros Ha. inversion Ha; subst; try discriminate.
  - match goal with H : token_lookup _ _ = Raise _ |- _ =>
      apply token_lookup_error in H; destruct H as [-> | [-> | [-> | [-> | ->]]]]
    end; discriminate.
  - match goal with H : answer _ _ _ _ = Raise _ |- _ =>
      apply answer_error in H; destruct H as [-> | ->]
    end; discriminate.
  - match goal with H : log_error _ |- _ => destruct H as [-> | [-> | ->]] end;
      discriminate.
  - match goal with H : log_error _ |- _ => destruct H as [-> | [-> | ->]] end;
      discriminate.
Qed.

(** C10. Within one call of [run] the second evaluation (Gate 3) is the
    first one again, so once Gate 1 is passed it cannot block: Gate 3 lets
    the run through, and [run] never raises [ExecutionBlocked]. *)
Theorem run_never_raises_execution_blocked
    (command : string) (skip_confirm : bool) (cb : option callback) (w : World) :
  Policy.evaluate command (Classifier.classify command) = first_policy command
  /\ (Runner.is_block (first_policy command) = false ->
      forall intent pol tid exp w1 reason,
        fst (Runner.execute_checked command intent pol tid exp w1)
        <> Raise (ExecutionBlocked reason))
  /\ (forall reason,
        fst (Runner.run command skip_confirm cb w) <> Raise (ExecutionBlocked reason)).
Proof.
  split; [reflexivity|]. split.
  - intros Hpass intent pol tid exp w1 reason.
    destruct (execute_checked_outcome command intent pol tid exp w1 Hpass)
      as [(_ & rec & w' & -> & _) | (_ & e & w' & -> & [-> | [-> | ->]] & _)];
      discriminate.
  - intros reason.
    destruct (Runner.run command skip_confirm cb w) as [res w'] eqn:Hrun.
    apply run_follows_path in Hrun. simpl.
    destruct Hrun as [why before rec _ _ -> | auth before rec _ _ -> | e before Ha ->];
      try discriminate.
    intros Heq. injection Heq as ->. eapply aborts_not_blocked; eauto.
Qed.




Lemma confirmations_in_app e1 e2 :
  confirmations_in (e1 ++ e2) = (confirmations_in e1 ++ confirmations_in e2)%list.
Proof. apply List.filter_app. Qed.





End Aborts.

(** ** The gates of a run *)

Section Gate1.
Context `{RT : PyRuntime}.


End Gate1.

Section Gate2a.
Context `{RT : PyRuntime}.







End Gate2a.

Section Gate2b.
Context `{RT : PyRuntime}.


(** Gate 3, were it ever to block: one DENY receipt is written, then
    [ExecutionBlocked] is raised, and nothing is executed. *)
Lemma gate3_block_writes_receipt command intent pol tid exp w :
  Runner.is_block (Policy.evaluate command (Classifier.classify command)) = true ->
  let file := Datetime.strftime_ymd (clock w (ticks w)) ++ ".jsonl" in
  log_sound (audit_dir w !! file) ->
  exists rec reason w',
    Runner.execute_checked command intent pol tid exp w
    = (Raise (ExecutionBlocked reason), w')
    /\ effects w w' [ReceiptWritten file rec] (with_line (audit_dir w) file rec)
    /\ field "decision" rec = Some "DENY".
Proof.
  intros Hb file Hlog. unfold Runner.execute_checked. rewrite Hb. unfold Env.bind.
  match goal with
  | |- context [Receipts.write_receipt ?i ?c ?d ?r ?t ?x w] =>
      destruct (write_receipt_outcome i c d r t x w)
        as [(_ & rec & w' & -> & He & Hd & _) | (Hn & _)]
  end.
  - exists rec. eexists _, w'. split; [reflexivity|]. split; assumption.
  - contradiction.
Qed.


End Gate2b.

(** ** Scenarios of the specification *)















(** ** The chain, record by record *)

Section ChainFacts.

Import Json.
Context `{RT : PyRuntime}.

Lemma equals_str_iff o s : Verify.equals_str o s = true <-> o = Some (JStr s).
Proof.
  unfold Verify.equals_str. destruct o as [[| | | |s'| |]|]; try (split; congruence).
  rewrite String.eqb_eq. split; congruence.
Qed.

Lemma sealed_checks prev d :
  Spec.sealed prev d <->
  Verify.equals_str (dict_get "prev_hash" d) prev = true
  /\ Verify.equals_str (dict_get "hash" d) (Receipts._compute_hash d) = true.
Proof. unfold Spec.sealed. rewrite !equals_str_iff. tauto. Qed.

(** A chain of sealed records passes the loop. *)
Lemma verify_records_chained global_index records :
  forall i prev, Spec.chained prev records ->
    Verify.verify_records global_index i prev records = Ok None.
Proof.
  induction records as [|v rest IH]; intros i prev Hc; [reflexivity|].
  destruct v; simpl in Hc; try contradiction.
  destruct Hc as (Hs & Hrest). apply sealed_checks in Hs. destruct Hs as (Hp & Hh).
  simpl. rewrite Hp, Hh. simpl. apply IH. exact Hrest.
Qed.

Lemma failure_sliceable what idx exp o :
  Spec.sliceable o ->
  exists r, Verify.failure what idx exp o = Ok r
            /\ Verify.ok r = false /\ Verify.total r = idx
            /\ Verify.failed_index r = Some idx.
Proof.
  unfold Verify.failure.
  destruct o as [[| | | |s| |]|]; simpl; try contradiction; intros _;
    eexists; (split; [reflexivity|]); repeat split.
Qed.

(** The loop stops at the first record that is not sealed and reports its
    index. *)
Lemma verify_records_first_failure global_index pre d post :
  forall i prev,
    Spec.chained prev pre ->
    ~ Spec.sealed (Spec.chain_end prev pre) d ->
    Spec.sliceable (dict_get "prev_hash" d) ->
    Spec.sliceable (dict_get "hash" d) ->
    exists r,
      Verify.verify_records global_index i prev (pre ++ JObj d :: post) = Ok (Some r)
      /\ Verify.ok r = false
      /\ Verify.failed_index r = Some (global_index + (i + List.length pre))%nat.
Proof.
  induction pre as [|v pre IH]; intros i prev Hc Hns Hsp Hsh.
  - simpl in *. rewrite sealed_checks in Hns.
    replace (global_index + (i + 0))%nat with (global_index + i)%nat by lia.
    destruct (Verify.equals_str (dict_get "prev_hash" d) prev) eqn:Ep; simpl.
    + destruct (Verify.equals_str (dict_get "hash" d) (Receipts._compute_hash d)) eqn:Eh.
      { exfalso. apply Hns. split; reflexivity. }
      simpl.
      destruct (failure_sliceable Verify.HashMismatch (global_index + i)
                  (Receipts._compute_hash d) _ Hsh) as (r & -> & Hok & _ & Hidx).
      exists r. simpl. repeat split; assumption.
    + destruct (failure_sliceable Verify.PrevHashMismatch (global_index + i)
                  prev _ Hsp) as (r & -> & Hok & _ & Hidx).
      exists r. simpl. repeat split; assumption.
  - destruct v; simpl in Hc; try contradiction.
    destruct Hc as (Hs & Hrest). apply sealed_checks in Hs. destruct Hs as (Hp & Hh).
    simpl. rewrite Hp, Hh. simpl.
    destruct (IH (S i) _ Hrest Hns Hsp Hsh) as (r & -> & Hok & Hidx).
    exists r. repeat split; try assumption.
    rewrite Hidx. f_equal. simpl. lia.
Qed.

Lemma dict_get_set_other key key' v d :
  key <> key' -> dict_get key' (dict_set key v d) = dict_get key' d.
Proof.
  intros Hne. induction d as [|[k x] d IH]; simpl.
  - destruct (String.eqb_spec key' key); [congruence | reflexivity].
  - destruct (String.eqb_spec key k) as [->|Hk]; simpl.
    + destruct (String.eqb_spec key' k); [congruence | reflexivity].
    + destruct (String.eqb_spec key' k); [reflexivity | exact IH].
Qed.

Lemma dict_get_set_same key v d : dict_get key (dict_set key v d) = Some v.
Proof.
  induction d as [|[k x] d IH]; simpl.
  - rewrite String.eqb_refl. reflexivity.
  - destruct (String.eqb_spec key k) as [->|Hk]; simpl.
    + rewrite String.eqb_refl. reflexivity.
    + destruct (String.eqb_spec key k); [congruence | exact IH].
Qed.

Lemma dict_without_set key v d :
  dict_without key (dict_set key v d) = dict_without key d.
Proof.
  unfold dict_without. induction d as [|[k x] d IH]; simpl.
  - rewrite String.eqb_refl. reflexivity.
  - destruct (String.eqb_spec key k) as [->|Hk]; simpl.
    + rewrite String.eqb_refl. reflexivity.
    + destruct (String.eqb_spec k key); [congruence|]. simpl. rewrite IH. reflexivity.
Qed.

(** Overwriting one field of a sealed record breaks the seal, unless the
    digest stays the same (a collision) or the value does. *)
Lemma mutation_breaks_seal prev d key v :
  Spec.sealed prev d ->
  dict_get key d <> Some v ->
  (key <> "hash" ->
   Receipts._compute_hash (dict_set key v d) <> Receipts._compute_hash d) ->
  ~ Spec.sealed prev (dict_set key v d).
Proof.
  intros (Hp & Hh) Hchanged Hnc (Hp' & Hh').
  destruct (String.eqb_spec key "hash") as [->|Hk].
  - rewrite dict_get_set_same in Hh'.
    unfold Receipts._compute_hash in Hh'. rewrite dict_without_set in Hh'.
    fold (Receipts._compute_hash d) in Hh'. congruence.
  - rewrite dict_get_set_other in Hh' by exact Hk.
    specialize (Hnc Hk). congruence.
Qed.

End ChainFacts.

Section Sealing.
Context `{RT : PyRuntime}.

(** The record [write_receipt] returns is sealed on what [_last_hash] read. *)
Lemma write_receipt_seals intent command decision reason tid exp w rec w' :
  Receipts.write_receipt intent command decision reason tid exp w = (Ok rec, w') ->
  exists prev,
    Receipts.last_hash_of
      (audit_dir w !! (Datetime.strftime_ymd (clock w (ticks w)) ++ ".jsonl")) = Ok prev
    /\ Json.dict_get "prev_hash" rec = Some prev
    /\ Json.dict_get "hash" rec = Some (Json.JStr (Receipts._compute_hash rec)).
Proof.
  unfold Receipts.write_receipt, Receipts._today_file, Receipts._last_hash.
  unfold Env.bind, Env.now, Env.read_file, Env.lift, Env.ret, Env.append_file, Env.emit.
  world_fields.
  destruct (Receipts.last_hash_of _) as [prev|e] eqn:E; [|discriminate].
  intros H. injection H as <- _. exists prev.
  split; [reflexivity|]. split; [reflexivity|].
  cbn [Json.dict_get String.eqb Ascii.eqb Bool.eqb].
  do 2 f_equal.
Qed.

End Sealing.

(** C3 (what the code does).  One receipt whose command holds U+0085 is appended
    to an empty log.  [json.dumps] with [ensure_ascii=False] writes that
    character as it is, and [splitlines] breaks the line there: the
    verifier raises [JSONDecodeError] where the claim has [ok=true,
    total=1], and so does the next [write_receipt]. *)
Theorem round_trip_breaks_on_next_line `{RT : PyRuntime} :
  let command := "ls " ++ Scenario.nel in
  let w0 := Scenario.world [] [] in
  let w1 := Scenario.after_writes [command] w0 in
  (exists rec, fst (Receipts.write_receipt "safe_echo" command "ALLOW" "ok" None None w0)
               = Ok rec
               /\ field "command" rec = Some command)
  /\ Verify.verify_chain (audit_dir w1) = Raise JSONDecodeError
  /\ fst (Receipts.write_receipt "safe_echo" "echo hi" "ALLOW" "ok" None None w1)
     = Raise JSONDecodeError.
Proof.
  intros command w0 w1. split; [|split].
  - set (res := fst (Receipts.write_receipt "safe_echo" command "ALLOW" "ok" None None w0)).
    vm_compute in res.
    match eval cbv delta [res] in res with Ok ?r => exists r end.
    subst res. split; [reflexivity | vm_compute; reflexivity].
  - vm_compute. reflexivity.
  - vm_compute. reflexivity.
Qed.

(** Without such a character the round trip holds: three receipts verify
    with [total = 3]. *)
Lemma three_receipts_verify `{RT : PyRuntime} :
  Verify.verify_chain
    (audit_dir (Scenario.after_writes ["echo one"; "echo two"; "echo three"]
                  (Scenario.world [] [])))
  = Ok {| Verify.ok := true; Verify.total := 3;
          Verify.failed_index := None; Verify.failed_reason := None |}.
Proof. vm_compute. reflexivity. Qed.

(** The scenario of the specification: the second record's [prev_hash]
    is overwritten with another string; verification fails at index 1. *)
Lemma corrupted_prev_hash_found `{RT : PyRuntime} :
  let dir := audit_dir (Scenario.after_writes ["echo one"; "echo two"; "echo three"]
                          (Scenario.world [] [])) in
  let bad := Json.JStr ("badc0ffee" ++ Py.zeros 55) in
  exists r,
    Verify.verify_chain (Scenario.tamper 1 "prev_hash" bad <$> dir) = Ok r
    /\ Verify.ok r = false /\ Verify.failed_index r = Some 1%nat.
Proof.
  intros dir bad.
  set (res := Verify.verify_chain (Scenario.tamper 1 "prev_hash" bad <$> dir)).
  vm_compute in res.
  match eval cbv delta [res] in res with Ok ?r => exists r end.
  subst res. repeat split; reflexivity.
Qed.

(** When the field is overwritten with something that is not a string
    (here [null]), formatting the failure message raises [TypeError] and
    no result is returned. *)
Lemma corrupted_prev_hash_null_raises `{RT : PyRuntime} :
  let dir := audit_dir (Scenario.after_writes ["echo one"; "echo two"; "echo three"]
                          (Scenario.world [] [])) in
  Verify.verify_chain (Scenario.tamper 1 "prev_hash" Json.JNull <$> dir)
  = Raise TypeError.
Proof. vm_compute. reflexivity. Qed.
